(** * book_scraper.py: rating decoder, item extraction and pagination driver

    A shallow embedding of [src/Assignment 1/book_scraper.py].

    - A Python [str] is the list of its code points.
    - A page is the tree BeautifulSoup builds: tags with a name, the
      token list of their [class] attribute, their other attributes
      and their children; strings are the leaves.
    - Exceptions are values of [exn]; code that can raise returns a
      [result].
    - The [while True] loop of [scrape_all_pages] is a function with
      fuel; it logs the requests, prints and sleeps it performs.
    - The [--test] branch of [__main__] is [test_mode]; the script as
      a whole, with its import guards, is [script].
    - What the program takes from outside is a parameter: the network
      ([requests.get], with its fixed headers and timeout),
      [urllib.parse.urljoin], the table of decimal digits of the
      interpreter's Unicode database, which [float] consults, and,
      for the script, whether [to_csv] can write its file. *)

From Stdlib Require Import List ZArith NArith Bool String Ascii Lia SpecFloat.
Import ListNotations.

Local Open Scope N_scope.

(** ** Strings *)

Definition pystr := list N.

(** An ASCII literal as a Python string. *)
Definition py (s : string) : pystr :=
  map N_of_ascii (list_ascii_of_string s).

Fixpoint str_eqb (a b : pystr) : bool :=
  match a, b with
  | [], [] => true
  | x :: a', y :: b' => (x =? y) && str_eqb a' b'
  | _, _ => false
  end.

(** [str.lower] on one code point.  Only [A]-[Z] are mapped: no code
    point outside that range lowercases to a letter of the words this
    program compares with (the Kelvin sign gives [k], which none of
    them contains), so the comparisons below agree with Python's. *)
Definition lower_cp (c : N) : N :=
  if (65 <=? c) && (c <=? 90) then c + 32 else c.

Definition lower (s : pystr) : pystr := map lower_cp s.

(** [str.isspace] for one code point. *)
Definition isspace (c : N) : bool :=
  ((9 <=? c) && (c <=? 13)) || ((28 <=? c) && (c <=? 32))
  || (c =? 133) || (c =? 160) || (c =? 5760)
  || ((8192 <=? c) && (c <=? 8202))
  || (c =? 8232) || (c =? 8233) || (c =? 8239) || (c =? 8287)
  || (c =? 12288).

Fixpoint lstrip (s : pystr) : pystr :=
  match s with
  | c :: s' => if isspace c then lstrip s' else s
  | [] => []
  end.

Definition rstrip (s : pystr) : pystr := rev (lstrip (rev s)).

(** [s.strip()] *)
Definition strip (s : pystr) : pystr := rstrip (lstrip s).

(** [s.replace(c, '')] for a one-character [c]. *)
Definition remove_char (c : N) (s : pystr) : pystr :=
  filter (fun x => negb (x =? c)) s.

Definition pound : N := 163.

(** ** Exceptions *)

Inductive transport_error : Type :=
  | ConnectionError
  | Timeout
  | TooManyRedirects.

Inductive exn : Type :=
  | AttributeError
  | IndexError
  | KeyError (key : pystr)
  | ValueError
  | HTTPError (status : Z)
  | RequestException (e : transport_error).

Inductive result (A : Type) : Type :=
  | Ok (a : A)
  | Raise (e : exn).

Arguments Ok {A} a.
Arguments Raise {A} e.

Definition bind {A B : Type} (r : result A) (k : A -> result B) : result B :=
  match r with
  | Ok a => k a
  | Raise e => Raise e
  end.

Notation "x <- c ;; k" := (bind c (fun x => k))
  (at level 61, c at next level, right associativity).

(** Attribute access on a value that may be [None]. *)
Definition not_none {A : Type} (o : option A) : result A :=
  match o with
  | Some a => Ok a
  | None => Raise AttributeError
  end.

(** ** The parsed page *)

Inductive tag : Type :=
  | Tag (name : pystr) (classes : option (list pystr))
        (attrs : list (pystr * pystr)) (contents : list node)
with node : Type :=
  | Element (t : tag)
  | NavigableString (s : pystr).

Definition tag_name (t : tag) : pystr :=
  match t with Tag n _ _ _ => n end.

(** The value of the [class] attribute: html.parser stores it as the
    list of its whitespace-separated tokens; [None] when the tag has
    no such attribute. *)
Definition tag_classes (t : tag) : option (list pystr) :=
  match t with Tag _ c _ _ => c end.

(** The attributes other than [class], each a string. *)
Definition tag_attrs (t : tag) : list (pystr * pystr) :=
  match t with Tag _ _ a _ => a end.

Definition tag_contents (t : tag) : list node :=
  match t with Tag _ _ _ c => c end.

(** [t.get(key)]: [None] when the attribute is missing. *)
Fixpoint dict_get {V : Type} (d : list (pystr * V)) (key : pystr) : option V :=
  match d with
  | [] => None
  | (k, v) :: d' => if str_eqb k key then Some v else dict_get d' key
  end.

Definition get_attr (t : tag) (key : pystr) : option pystr :=
  dict_get (tag_attrs t) key.

(** [t[key]] *)
Definition getitem (t : tag) (key : pystr) : result pystr :=
  match get_attr t key with
  | Some v => Ok v
  | None => Raise (KeyError key)
  end.

(** [t.descendants]: every node below [t], in document order. *)
Fixpoint descendants (t : tag) : list node :=
  match t with
  | Tag _ _ _ cs =>
      (fix below (l : list node) : list node :=
         match l with
         | [] => []
         | Element t' :: l' => Element t' :: descendants t' ++ below l'
         | NavigableString s :: l' => NavigableString s :: below l'
         end) cs
  end.

(** [t.text]: the strings below [t], concatenated. *)
Fixpoint text (t : tag) : pystr :=
  match t with
  | Tag _ _ _ cs =>
      (fix below (l : list node) : pystr :=
         match l with
         | [] => []
         | Element t' :: l' => text t' ++ below l'
         | NavigableString s :: l' => s ++ below l'
         end) cs
  end.

(** A [class_] filter with a single word matches a tag when one of
    its class tokens is that word. *)
Definition has_class (cls : pystr) (t : tag) : bool :=
  match tag_classes t with
  | Some l => existsb (str_eqb cls) l
  | None => false
  end.

Definition matches (name : pystr) (cls : option pystr) (t : tag) : bool :=
  str_eqb (tag_name t) name
  && match cls with
     | Some c => has_class c t
     | None => true
     end.

Fixpoint select (name : pystr) (cls : option pystr) (l : list node) : list tag :=
  match l with
  | [] => []
  | Element t :: l' =>
      if matches name cls t then t :: select name cls l' else select name cls l'
  | NavigableString _ :: l' => select name cls l'
  end.

(** [t.find_all(name, class_=cls)] *)
Definition find_all (name : pystr) (cls : option pystr) (t : tag) : list tag :=
  select name cls (descendants t).

(** [t.find(name, class_=cls)] *)
Definition find (name : pystr) (cls : option pystr) (t : tag) : option tag :=
  hd_error (find_all name cls t).

(** ** extract_rating_int (lines 30-48) *)

Definition mapping : list (pystr * Z) :=
  [ (py "one", 1%Z); (py "two", 2%Z); (py "three", 3%Z);
    (py "four", 4%Z); (py "five", 5%Z) ].

(** [l[i]] on a list. *)
Definition index {A : Type} (l : list A) (i : nat) : result A :=
  match nth_error l i with
  | Some a => Ok a
  | None => Raise IndexError
  end.

Definition is_marker (c : pystr) : bool :=
  str_eqb (lower c) (py "star-rating").

(** [star_tag] is [None] or a tag; a tag is always true in a
    condition, whatever its contents. *)
Definition extract_rating_int (star_tag : option tag) : result (option Z) :=
  match star_tag with
  | None => Ok None
  | Some t =>
      let classes := match tag_classes t with Some l => l | None => [] end in
      let words := filter (fun c => negb (is_marker c)) classes in
      match words with
      | [] => Ok None
      | _ :: _ =>
          w <- index words 0 ;;
          let word := lower w in
          Ok (dict_get mapping word)
      end
  end.

(** ** float(str) *)

Definition is_digit (c : N) : bool := (48 <=? c) && (c <=? 57).

(** The C library's [isspace] on ASCII, which [float] strips with. *)
Definition ascii_isspace (c : N) : bool :=
  ((9 <=? c) && (c <=? 13)) || (c =? 32).

Definition underscore : N := 95.

(** Underscores may only stand between two digits; they are dropped.
    [prev] is the character before [s] (0 at the start). *)
Fixpoint drop_underscores (prev : N) (s : pystr) : option pystr :=
  match s with
  | [] => if prev =? underscore then None else Some []
  | c :: s' =>
      if c =? underscore then
        if is_digit prev then drop_underscores c s' else None
      else if (prev =? underscore) && negb (is_digit c) then None
      else option_map (cons c) (drop_underscores c s')
  end.

Fixpoint ascii_lstrip (s : pystr) : pystr :=
  match s with
  | c :: s' => if ascii_isspace c then ascii_lstrip s' else s
  | [] => []
  end.

Definition ascii_strip (s : pystr) : pystr :=
  rev (ascii_lstrip (rev (ascii_lstrip s))).

(** The longest prefix of digits, and the rest. *)
Fixpoint span_digits (s : pystr) : pystr * pystr :=
  match s with
  | c :: s' =>
      if is_digit c then let (d, r) := span_digits s' in (c :: d, r)
      else ([], s)
  | [] => ([], [])
  end.

Definition digits_value (d : pystr) : Z :=
  fold_left (fun acc c => (10 * acc + Z.of_N (c - 48))%Z) d 0%Z.

Definition is_nil {A : Type} (l : list A) : bool :=
  match l with [] => true | _ => false end.

(** An optional sign: whether it is [-], and the rest. *)
Definition split_sign (s : pystr) : bool * pystr :=
  match s with
  | 43 :: r => (false, r)
  | 45 :: r => (true, r)
  | _ => (false, s)
  end.

(** [digits [. digits] [(e|E) [sign] digits]] with a digit before or
    after the point, as the pair (m, e) standing for m * 10^e. *)
Definition parse_decimal (s : pystr) : option (Z * Z) :=
  let (ip, r1) := span_digits s in
  let (fp, r2) := match r1 with
                  | 46 :: r => span_digits r
                  | _ => ([], r1)
                  end in
  if is_nil ip && is_nil fp then None
  else
    let m := digits_value (ip ++ fp) in
    let e0 := (- Z.of_nat (List.length fp))%Z in
    match r2 with
    | [] => Some (m, e0)
    | c :: r3 =>
        if (c =? 101) || (c =? 69) then
          let (neg, r4) := split_sign r3 in
          let (ed, r5) := span_digits r4 in
          if is_nil ed || negb (is_nil r5) then None
          else Some (m, (e0 + (if neg then - digits_value ed else digits_value ed))%Z)
        else None
    end.

Definition prec : Z := 53.
Definition emax : Z := 1024.

(** The binary64 number nearest to m * 10^e, ties to even: the
    quotient of two integers, rounded once. *)
Definition float_of_decimal (neg : bool) (m e : Z) : spec_float :=
  match m with
  | Zpos p =>
      let num := Z.to_pos (Zpos p * 10 ^ Z.max e 0) in
      let den := Z.to_pos (10 ^ Z.max (- e) 0) in
      SFdiv prec emax (S754_finite neg num 0) (S754_finite false den 0)
  | _ => S754_zero neg
  end.

(** [inf], [infinity] and [nan], in any case. *)
Definition parse_inf_or_nan (neg : bool) (s : pystr) : option spec_float :=
  let l := lower s in
  if str_eqb l (py "inf") || str_eqb l (py "infinity") then Some (S754_infinity neg)
  else if str_eqb l (py "nan") then Some S754_nan
  else None.

Definition parse_float (s : pystr) : option spec_float :=
  let (neg, r) := split_sign s in
  match parse_decimal r with
  | Some (m, e) => Some (float_of_decimal neg m e)
  | None => parse_inf_or_nan neg r
  end.

Section Float.

(** The decimal value of a code point above ASCII in the interpreter's
    Unicode database, if it is a decimal digit. *)
Variable unicode_todecimal : N -> option N.

(** Spaces become [' '] and decimal digits ASCII digits; the string is
    cut at the first other non-ASCII character, replaced by [?]. *)
Fixpoint transform_decimal_and_space (s : pystr) : pystr :=
  match s with
  | [] => []
  | c :: s' =>
      if c <? 127 then c :: transform_decimal_and_space s'
      else if isspace c then 32 :: transform_decimal_and_space s'
      else match unicode_todecimal c with
           | Some d =>
               if d <? 10 then (48 + d) :: transform_decimal_and_space s'
               else [63]
           | None => [63]
           end
  end.

(** [float(s)] *)
Definition float (s : pystr) : result spec_float :=
  match drop_underscores 0 (transform_decimal_and_space s) with
  | None => Raise ValueError
  | Some s1 =>
      match parse_float (ascii_strip s1) with
      | Some x => Ok x
      | None => Raise ValueError
      end
  end.

End Float.

(** ** One book entry (lines 77-87, and again lines 127-131) *)

Record row : Type := mkRow {
  title : pystr;
  price : spec_float;
  rating : option Z
}.

(** [t.get(key, default)] *)
Definition get_default (t : tag) (key default : pystr) : pystr :=
  match get_attr t key with
  | Some v => v
  | None => default
  end.

Section Extraction.

Variable unicode_todecimal : N -> option N.

(** [book.find('h3').find('a').get('title', '').strip()] *)
Definition extract_title (book : tag) : result pystr :=
  h3 <- not_none (find (py "h3") None book) ;;
  title_tag <- not_none (find (py "a") None h3) ;;
  Ok (strip (get_default title_tag (py "title") [])).

(** [float(price_text.replace(pound, '').strip())] *)
Definition parse_price (price_text : pystr) : result spec_float :=
  float unicode_todecimal (strip (remove_char pound price_text)).

Definition extract_price (book : tag) : result spec_float :=
  p <- not_none (find (py "p") (Some (py "price_color")) book) ;;
  let price_text := strip (text p) in
  parse_price price_text.

Definition extract_book (book : tag) : result row :=
  title <- extract_title book ;;
  price <- extract_price book ;;
  let rating_tag := find (py "p") (Some (py "star-rating")) book in
  rating <- extract_rating_int rating_tag ;;
  Ok (mkRow title price rating).

(** The [for book in books] loop: the list [results] when the loop
    ends, and the exception that ended it, if one did. *)
Fixpoint for_books (books : list tag) (results : list row)
  : list row * option exn :=
  match books with
  | [] => (results, None)
  | book :: books' =>
      match extract_book book with
      | Ok r => for_books books' (results ++ [r])
      | Raise e => (results, Some e)
      end
  end.

End Extraction.

(** ** scrape_all_pages (lines 51-105) *)

Record response : Type := mkResponse {
  status_code : Z;
  (** [BeautifulSoup(response.content, 'html.parser')] *)
  soup : tag
}.

(** What [requests.get] does: return a response or raise. *)
Inductive get_outcome : Type :=
  | Responds (r : response)
  | Fails (e : transport_error).

(** [response.raise_for_status()] raises for a 4xx or 5xx status. *)
Definition is_error_status (status : Z) : bool :=
  ((400 <=? status) && (status <? 600))%Z.

Definition raise_for_status (r : response) : result unit :=
  if is_error_status (status_code r) then Raise (HTTPError (status_code r))
  else Ok tt.

(** What the program does to the world: a GET, the progress line of
    a page, the pause between pages and, in test mode, a printed row
    and the closing line with the number of rows. *)
Inductive event : Type :=
  | EGet (url : pystr)
  | EPrint (page_num : Z) (n_books : nat)
  | ESleep (seconds : Z)
  | EPrintRow (r : row)
  | EPrintCount (n : nat).

(** The URLs requested, in order. *)
Fixpoint requests_of (log : list event) : list pystr :=
  match log with
  | [] => []
  | EGet u :: log' => u :: requests_of log'
  | _ :: log' => requests_of log'
  end.

(** [l[:n]] *)
Definition slice_to {A : Type} (l : list A) (n : Z) : list A :=
  if (0 <=? n)%Z then firstn (Z.to_nat n) l
  else firstn (List.length l - Z.to_nat (- n)) l.

(** How a call ends; [Running] when the fuel ran out first. *)
Inductive outcome : Type :=
  | Returned (df : list row)
  | Raised (e : exn)
  | Running.

Section Driver.

Variable unicode_todecimal : N -> option N.

(** [urllib.parse.urljoin] *)
Variable urljoin : pystr -> pystr -> pystr.

(** The network: the outcome of
    [requests.get(url, headers=headers, timeout=10)], given the URLs
    requested before it and its own URL. *)
Variable requests_get : list pystr -> pystr -> get_outcome.

(** The [while True] loop.  [url] is the URL the loop requests, which
    is also the one the next link is joined to.  pandas is taken as
    imported (the full run of [__main__] stops before this call
    otherwise); the DataFrame is the list of its rows, its columns
    being the fields of [row]. *)
Fixpoint scrape_loop (fuel : nat) (url : pystr) (results : list row)
    (page_num : Z) (log : list event) : list event * outcome :=
  match fuel with
  | O => (log, Running)
  | S fuel' =>
      let log1 := log ++ [EGet url] in
      match requests_get (requests_of log) url with
      | Fails e => (log1, Raised (RequestException e))
      | Responds response =>
          match raise_for_status response with
          | Raise e => (log1, Raised e)
          | Ok _ =>
              let books :=
                find_all (py "article") (Some (py "product_pod")) (soup response) in
              if is_nil books then (log1, Returned results)
              else
                match for_books unicode_todecimal books results with
                | (_, Some e) => (log1, Raised e)
                | (results', None) =>
                    let log2 := log1 ++ [EPrint page_num (List.length books)] in
                    match find (py "li") (Some (py "next")) (soup response) with
                    | None => (log2, Returned results')
                    | Some next_li =>
                        match find (py "a") None next_li with
                        | None => (log2, Returned results')
                        | Some a =>
                            match getitem a (py "href") with
                            | Raise e => (log2, Raised e)
                            | Ok next_href =>
                                scrape_loop fuel' (urljoin url next_href) results'
                                  (page_num + 1) (log2 ++ [ESleep 1])
                            end
                        end
                    end
                end
          end
      end
  end.

Definition scrape_all_pages (fuel : nat) (base_url : pystr)
  : list event * outcome :=
  scrape_loop fuel base_url [] 1 [].

(** The [--test] branch of [__main__] (lines 117-134): what it does,
    and the exception it ends in, if any. *)
Definition test_mode (test_count : Z) : list event * option exn :=
  let url := py "https://books.toscrape.com" in
  let log1 := [EGet url] in
  match requests_get [] url with
  | Fails e => (log1, Some (RequestException e))
  | Responds response =>
      match raise_for_status response with
      | Raise e => (log1, Some e)
      | Ok _ =>
          let books :=
            find_all (py "article") (Some (py "product_pod")) (soup response) in
          match for_books unicode_todecimal (slice_to books test_count) [] with
          | (_, Some e) => (log1, Some e)
          | (results, None) =>
              (log1 ++ map EPrintRow results ++ [EPrintCount (List.length results)],
               None)
          end
      end
  end.

End Driver.

(** ** The script (lines 8-24 and 108-141) *)

(** Which of the three libraries can be imported. *)
Record installed : Type := mkInstalled {
  has_requests : bool;
  has_bs4 : bool;
  has_pandas : bool
}.

(** The parsed command line. *)
Record arguments : Type := mkArguments {
  test : bool;
  test_count : Z;
  output : pystr
}.

Inductive dependency : Type :=
  | Requests
  | BeautifulSoup4
  | Pandas.

(** What the script does: the warning of line 24, the events of the
    scraping code, the call of [df.to_csv] and the closing line of the
    full run. *)
Inductive script_event : Type :=
  | Warned
  | Core (e : event)
  | ToCsv (path : pystr) (df : list row)
  | PrintSaved (n : nat) (path : pystr).

(** How the script ends: at its last line, on a [SystemExit] naming a
    missing library, on an exception of the scraping code, on an
    exception of [to_csv]; [Unfinished] when the fuel ran out. *)
Inductive exit : Type :=
  | Finished
  | SystemExit (missing : dependency)
  | Uncaught (e : exn)
  | WriteFailed
  | Unfinished.

Definition site_url : pystr := py "https://books.toscrape.com".

Section Script.

Variable unicode_todecimal : N -> option N.
Variable urljoin : pystr -> pystr -> pystr.
Variable requests_get : list pystr -> pystr -> get_outcome.

(** The file system: whether [df.to_csv(path, index=False,
    encoding='utf-8')] writes the file ([true]) or raises. *)
Variable to_csv : pystr -> list row -> bool.

Definition script (deps : installed) (args : arguments) (fuel : nat)
  : list script_event * exit :=
  if negb (has_requests deps) then ([], SystemExit Requests)
  else if negb (has_bs4 deps) then ([], SystemExit BeautifulSoup4)
  else
    let warned := if has_pandas deps then [] else [Warned] in
    if test args then
      match test_mode unicode_todecimal requests_get (test_count args) with
      | (log, Some e) => (warned ++ map Core log, Uncaught e)
      | (log, None) => (warned ++ map Core log, Finished)
      end
    else if negb (has_pandas deps) then (warned, SystemExit Pandas)
    else
      match scrape_all_pages unicode_todecimal urljoin requests_get fuel site_url with
      | (log, Raised e) => (map Core log, Uncaught e)
      | (log, Running) => (map Core log, Unfinished)
      | (log, Returned df) =>
          let log1 := map Core log ++ [ToCsv (output args) df] in
          if to_csv (output args) df
          then (log1 ++ [PrintSaved (List.length df) (output args)], Finished)
          else (log1, WriteFailed)
      end.

End Script.

(** ** Reference resolution on plain paths

    [urljoin] is a parameter of the driver.  The examples use its
    behaviour on the URLs of the scraped site: an absolute base
    [scheme://host/path] and a reference that is a relative or
    absolute path, both without parameters, query or fragment. *)

(** [s.split(c)] *)
Fixpoint split_on (c : N) (s : pystr) : list pystr :=
  match s with
  | [] => [[]]
  | x :: s' =>
      match split_on c s' with
      | seg :: segs => if x =? c then [] :: seg :: segs else (x :: seg) :: segs
      | [] => [[]]
      end
  end.

(** [c.join(l)] *)
Fixpoint join (c : N) (l : list pystr) : pystr :=
  match l with
  | [] => []
  | [seg] => seg
  | seg :: l' => seg ++ c :: join c l'
  end.

Definition slash : N := 47.
Definition dot : pystr := [46].
Definition dotdot : pystr := [46; 46].

(** [segments[1:-1] = filter(None, segments[1:-1])] *)
Definition drop_empty_inner (segments : list pystr) : list pystr :=
  match segments with
  | first :: ((_ :: _) as rest) =>
      first :: filter (fun seg => negb (is_nil seg)) (removelast rest)
        ++ [last rest []]
  | _ => segments
  end.

Definition resolve_segments (segments : list pystr) : list pystr :=
  fold_left
    (fun resolved seg =>
       if str_eqb seg dotdot then removelast resolved
       else if str_eqb seg dot then resolved
       else resolved ++ [seg])
    segments [].

Definition resolve_path (bpath path : pystr) : pystr :=
  let base_parts := split_on slash bpath in
  let base_parts :=
    if is_nil (last base_parts []) then base_parts else removelast base_parts in
  let segments :=
    match path with
    | 47 :: _ => split_on slash path
    | _ => drop_empty_inner (base_parts ++ split_on slash path)
    end in
  let resolved := resolve_segments segments in
  let resolved :=
    if str_eqb (last segments []) dot || str_eqb (last segments []) dotdot
    then resolved ++ [[]] else resolved in
  match join slash resolved with
  | [] => [slash]
  | p => p
  end.

(** The text up to the first [c], and the rest from [c] on. *)
Fixpoint span_until (c : N) (s : pystr) : pystr * pystr :=
  match s with
  | [] => ([], [])
  | x :: s' =>
      if x =? c then ([], s)
      else let (a, b) := span_until c s' in (x :: a, b)
  end.

Definition urljoin_path (base url : pystr) : pystr :=
  if is_nil base then url
  else if is_nil url then base
  else
    let (scheme, r) := span_until 58 base in
    match r with
    | 58 :: 47 :: 47 :: r' =>
        let (netloc, bpath) := span_until slash r' in
        let path :=
          match resolve_path bpath url with
          | 47 :: p => slash :: p
          | p => slash :: p
          end in
        scheme ++ [58; 47; 47] ++ netloc ++ path
    | _ => resolve_path base url
    end.

(** * Vocabulary of the properties *)

(** [t.get('class', [])] *)
Definition class_tokens (t : tag) : list pystr :=
  match tag_classes t with Some l => l | None => [] end.

(** The rank words: the keys of [mapping]. *)
Definition rank_words : list pystr := map fst mapping.

(** The double nearest to 51.77. *)
Definition float_51_77 : spec_float :=
  S754_finite false 7285979772155331 (-47).

(** The book entries of a page. *)
Definition item_containers (page : tag) : list tag :=
  find_all (py "article") (Some (py "product_pod")) page.

(** The [next] navigation marker of a page. *)
Definition next_marker (page : tag) : option tag :=
  find (py "li") (Some (py "next")) page.

(** The link inside the [next] marker. *)
Definition next_link (page : tag) : option tag :=
  match next_marker page with
  | Some next_li => find (py "a") None next_li
  | None => None
  end.

(** The exception a GET ends in, from [requests.get] itself or from
    [raise_for_status]. *)
Definition fetch_error (o : get_outcome) : option exn :=
  match o with
  | Fails e => Some (RequestException e)
  | Responds r =>
      if is_error_status (status_code r) then Some (HTTPError (status_code r))
      else None
  end.

(** An entry has its heading link, read for the title. *)
Definition has_title_link (book : tag) : bool :=
  match find (py "h3") None book with
  | Some h3 =>
      match find (py "a") None h3 with
      | Some _ => true
      | None => false
      end
  | None => false
  end.

(** An entry has no price element. *)
Definition price_missing (book : tag) : Prop :=
  find (py "p") (Some (py "price_color")) book = None.

Section Entries.

Variable unicode_todecimal : N -> option N.

(** The rows of a list of entries that all extract. *)
Definition extracted (books : list tag) (rows : list row) : Prop :=
  Forall2 (fun book r => extract_book unicode_todecimal book = Ok r) books rows.

(** An entry has a price element whose text, once the currency sign is
    removed, is not a number. *)
Definition price_unparsable (book : tag) : Prop :=
  exists p,
    find (py "p") (Some (py "price_color")) book = Some p
    /\ float unicode_todecimal (strip (remove_char pound (strip (text p))))
       = Raise ValueError.

(** An entry has a price element whose text parses. *)
Definition has_price (book : tag) : bool :=
  match find (py "p") (Some (py "price_color")) book with
  | Some p =>
      match parse_price unicode_todecimal (strip (text p)) with
      | Ok _ => true
      | Raise _ => false
      end
  | None => false
  end.

(** An entry as the site writes them: a heading link and a price. *)
Definition well_formed (book : tag) : bool :=
  has_title_link book && has_price book.

End Entries.

Section Trails.

Variable urljoin : pystr -> pystr -> pystr.
Variable requests_get : list pystr -> pystr -> get_outcome.

(** The requests of a run from [url], made after the requests
    [history], and how the run ends: the loop stops at a request, or
    follows the next link of the page it got. *)
Inductive trail (history : list pystr) (url : pystr)
  : list pystr -> outcome -> Prop :=
  | trail_idle : trail history url [] Running
  | trail_failed (e : exn) :
      fetch_error (requests_get history url) = Some e ->
      trail history url [url] (Raised e)
  | trail_last (out : outcome) :
      fetch_error (requests_get history url) = None ->
      out <> Running ->
      trail history url [url] out
  | trail_next (r : response) (a : tag) (href : pystr)
      (rest : list pystr) (out : outcome) :
      requests_get history url = Responds r ->
      is_error_status (status_code r) = false ->
      next_link (soup r) = Some a ->
      get_attr a (py "href") = Some href ->
      trail (history ++ [url]) (urljoin url href) rest out ->
      trail history url (url :: rest) out.

End Trails.

(** The decoder as a function of the lowercased tokens alone. *)
Definition decode_lowered (tokens : list pystr) : option Z :=
  match filter (fun c => negb (str_eqb c (py "star-rating"))) tokens with
  | [] => None
  | word :: _ => dict_get mapping word
  end.

(** A text does not start with whitespace. *)
Definition starts_clean (s : pystr) : bool :=
  match s with
  | c :: _ => negb (isspace c)
  | [] => true
  end.

(** A text has no whitespace at either end. *)
Definition trimmed (s : pystr) : bool :=
  starts_clean s && starts_clean (rev s).

(** A rating as the records hold it: absent, or from 1 to 5. *)
Definition valid_rating (rating : option Z) : Prop :=
  match rating with
  | Some n => (1 <= n <= 5)%Z
  | None => True
  end.

(** A character the price parser drops: whitespace at the ends, the
    currency sign anywhere. *)
Definition space_or_pound (c : N) : bool := isspace c || (c =? pound).

(** The exceptions [scrape_all_pages] can end in. *)
Definition raisable (e : exn) : Prop :=
  match e with
  | RequestException _ => True
  | HTTPError status => (400 <= status < 600)%Z
  | AttributeError => True
  | ValueError => True
  | KeyError key => key = py "href"
  | IndexError => False
  end.

(** The requests and pauses of a log, in order. *)
Definition is_get_or_sleep (e : event) : bool :=
  match e with
  | EGet _ | ESleep _ => true
  | _ => false
  end.

Definition pacing (log : list event) : list event :=
  filter is_get_or_sleep log.

(** Requests with a pause of one second between each two. *)
Fixpoint paced (requests : list pystr) : list event :=
  match requests with
  | [] => []
  | [u] => [EGet u]
  | u :: rest => EGet u :: ESleep 1 :: paced rest
  end.

(** The page numbers of the progress lines of a log, in order. *)
Fixpoint page_numbers (log : list event) : list Z :=
  match log with
  | [] => []
  | EPrint page_num _ :: log' => page_num :: page_numbers log'
  | _ :: log' => page_numbers log'
  end.

(** [first; first + 1; ...], [n] numbers. *)
Fixpoint count_from (first : Z) (n : nat) : list Z :=
  match n with
  | O => []
  | S n' => first :: count_from (first + 1) n'
  end.

(** What test mode does when it prints the rows [rows]. *)
Definition preview (rows : list row) : list event :=
  [EGet site_url] ++ map EPrintRow rows ++ [EPrintCount (List.length rows)].

(** The requests of the script. *)
Fixpoint script_requests (log : list script_event) : list pystr :=
  match log with
  | [] => []
  | Core (EGet u) :: log' => u :: script_requests log'
  | _ :: log' => script_requests log'
  end.

Section Gathering.

Variable unicode_todecimal : N -> option N.
Variable urljoin : pystr -> pystr -> pystr.
Variable requests_get : list pystr -> pystr -> get_outcome.

(** The pages a run that returns goes through, from [url] after the
    requests [history], and the rows it gathers from them: each page
    comes without an error status and all its entries extract; the run
    stops at a page without entries or without a next link, and
    otherwise goes on from the link of the page. *)
Inductive gathered (history : list pystr) (url : pystr)
  : list pystr -> list row -> Prop :=
  | gathered_stop (r : response) (rows : list row) :
      requests_get history url = Responds r ->
      is_error_status (status_code r) = false ->
      extracted unicode_todecimal (item_containers (soup r)) rows ->
      item_containers (soup r) = [] \/ next_link (soup r) = None ->
      gathered history url [url] rows
  | gathered_next (r : response) (rows : list row) (a : tag) (href : pystr)
      (requests : list pystr) (rows' : list row) :
      requests_get history url = Responds r ->
      is_error_status (status_code r) = false ->
      item_containers (soup r) <> [] ->
      extracted unicode_todecimal (item_containers (soup r)) rows ->
      next_link (soup r) = Some a ->
      get_attr a (py "href") = Some href ->
      gathered (history ++ [url]) (urljoin url href) requests rows' ->
      gathered history url (url :: requests) (rows ++ rows').

End Gathering.

(** ** Example pages, laid out as the scraped site lays them out *)

Module Examples.

Definition text_tag (name : string) (cls : option (list pystr))
    (attrs : list (pystr * pystr)) (s : pystr) : tag :=
  Tag (py name) cls attrs [NavigableString s].

(** An [article.product_pod]; a field given as [None] is left out. *)
Definition book_tag (title_attr : option pystr) (price_text : option pystr)
    (rating_classes : option (list pystr)) : tag :=
  Tag (py "article") (Some [py "product_pod"]) []
    ((match rating_classes with
      | Some c => [Element (Tag (py "p") (Some c) [] [])]
      | None => []
      end)
     ++ [Element (Tag (py "h3") None []
           [Element (text_tag "a" None
              ((py "href", py "catalogue/index.html")
               :: match title_attr with
                  | Some t => [(py "title", t)]
                  | None => []
                  end)
              (py "A Light in the ..."))])]
     ++ [Element (Tag (py "div") (Some [py "product_price"]) []
           (match price_text with
            | Some p => [Element (text_tag "p" (Some [py "price_color"]) [] p)]
            | None => []
            end
            ++ [Element (text_tag "p" (Some [py "instock"; py "availability"]) []
                  (py "In stock"))]))]).

Definition pager (next_href : option pystr) : tag :=
  Tag (py "ul") (Some [py "pager"]) []
    (Element (text_tag "li" (Some [py "current"]) [] (py "Page"))
     :: match next_href with
        | Some h =>
            [Element (Tag (py "li") (Some [py "next"]) []
               [Element (text_tag "a" None [(py "href", h)] (py "next"))])]
        | None => []
        end).

Definition page (books : list tag) (next_href : option pystr) : tag :=
  Tag (py "[document]") None []
    [Element (Tag (py "html") None []
       [Element (Tag (py "body") None []
          [Element (Tag (py "section") None [] (map Element books));
           Element (pager next_href)])])].

Definition attic : tag :=
  book_tag (Some (py " A Light in the Attic "))
    (Some (pound :: py "51.77")) (Some [py "star-rating"; py "Three"]).

Definition velvet : tag :=
  book_tag (Some (py "Tipping the Velvet"))
    (Some (py "  " ++ pound :: py "53.74 ")) (Some [py "star-rating"; py "One"]).

Definition soumission : tag :=
  book_tag (Some (py "Soumission")) (Some (pound :: py "50.10")) None.

Definition untitled : tag :=
  book_tag None (Some (pound :: py "13.99")) (Some [py "star-rating"; py "Five"]).

Definition no_price : tag :=
  book_tag (Some (py "Sharp Objects")) None (Some [py "star-rating"; py "Four"]).

Definition bad_price : tag :=
  book_tag (Some (py "Sapiens")) (Some (py "N/A")) (Some [py "star-rating"; py "Five"]).

Definition base_url : pystr := py "https://books.toscrape.com".
Definition page2_url : pystr := py "https://books.toscrape.com/catalogue/page-2.html".
Definition page3_url : pystr := py "https://books.toscrape.com/catalogue/page-3.html".

(** A site as a table from URL to response; anything else is a 404. *)
Definition serve (site : list (pystr * response)) (history : list pystr)
    (url : pystr) : get_outcome :=
  match dict_get site url with
  | Some r => Responds r
  | None => Responds (mkResponse 404 (page [] None))
  end.

(** A Unicode database that knows the Arabic-Indic digits. *)
Definition todecimal (c : N) : option N :=
  if (1632 <=? c) && (c <=? 1641) then Some (c - 1632) else None.

Definition three_pages : list (pystr * response) :=
  [ (base_url, mkResponse 200 (page [attic; velvet] (Some (py "catalogue/page-2.html"))));
    (page2_url, mkResponse 200 (page [soumission] (Some (py "page-3.html"))));
    (page3_url, mkResponse 200 (page [untitled] None)) ].

Definition two_pages : list (pystr * response) :=
  [ (base_url, mkResponse 200 (page [attic; velvet] (Some (py "catalogue/page-2.html"))));
    (page2_url, mkResponse 200 (page [soumission; untitled] None)) ].

Definition one_page (books : list tag) (status : Z) : list (pystr * response) :=
  [ (base_url, mkResponse status (page books None)) ].

(** The server is down. *)
Definition unreachable (history : list pystr) (url : pystr) : get_outcome :=
  Fails ConnectionError.

(** Three entries, the second without a price element; no next
    marker. *)
Definition page_no_price : tag := page [attic; no_price; velvet] None.

(** One entry and no next marker. *)
Definition page_attic : tag := page [attic] None.

Definition page_empty_linked : tag := page [] (Some (py "catalogue/page-2.html")).

Definition page_soumission : tag := page [soumission] None.

(** The price text with whitespace around it. *)
Definition spaced : tag :=
  book_tag (Some (py "Sharp Objects")) (Some (py "  " ++ pound :: py "51.77" ++ [10]))
    (Some [py "star-rating"; py "Four"]).

(** Page 2 answers with a server error. *)
Definition broken_link : list (pystr * response) :=
  [ (base_url, mkResponse 200 (page [attic; velvet] (Some (py "catalogue/page-2.html"))));
    (page2_url, mkResponse 503 (page [] None)) ].

(** Page 1 links to page 2 but lists no book. *)
Definition empty_then_more : list (pystr * response) :=
  [ (base_url, mkResponse 200 page_empty_linked);
    (page2_url, mkResponse 200 page_soumission) ].

Definition run (site : list (pystr * response)) (fuel : nat) :=
  scrape_all_pages todecimal urljoin_path (serve site) fuel base_url.

(** The rows of the example entries. *)
Definition attic_row : row :=
  mkRow (py "A Light in the Attic") float_51_77 (Some 3%Z).

Definition velvet_row : row :=
  mkRow (py "Tipping the Velvet") (S754_finite false 7563232624215327 (-47))
    (Some 1%Z).

Definition soumission_row : row :=
  mkRow (py "Soumission") (S754_finite false 7050948166601933 (-47)) None.

Definition untitled_row : row :=
  mkRow [] (S754_finite false 7875669848364155 (-49)) (Some 5%Z).

(** What the full run over [three_pages] does. *)
Definition three_pages_log : list event :=
  [EGet base_url; EPrint 1 2; ESleep 1;
   EGet page2_url; EPrint 2 1; ESleep 1;
   EGet page3_url; EPrint 3 1].

Definition three_pages_rows : list row :=
  [attic_row; velvet_row; soumission_row; untitled_row].

(** An entry without a heading. *)
Definition no_heading : tag :=
  Tag (py "article") (Some [py "product_pod"]) []
    [Element (text_tag "p" (Some [py "price_color"]) [] (pound :: py "9.99"))].

(** A disk that can always be written. *)
Definition disk (path : pystr) (df : list row) : bool := true.

Definition full_run : arguments := mkArguments false 10 (py "books.csv").
Definition quick_test : arguments := mkArguments true 1 (py "books.csv").

End Examples.

(** * Properties *)

(** ** Strings *)

Lemma str_eqb_refl (a : pystr) : str_eqb a a = true.
Proof.
  induction a as [|x a IH]; simpl; [reflexivity|].
  now rewrite N.eqb_refl, IH.
Qed.

Lemma str_eqb_eq (a b : pystr) : str_eqb a b = true <-> a = b.
Proof.
  split; [|intros ->; apply str_eqb_refl].
  revert b; induction a as [|x a IH]; intros [|y b]; simpl; try discriminate; auto.
  intros H; apply andb_prop in H as [Hx Hab].
  apply N.eqb_eq in Hx; subst; f_equal; auto.
Qed.

Lemma lstrip_spaces (ws s : pystr) :
  forallb isspace ws = true -> lstrip (ws ++ s) = lstrip s.
Proof.
  induction ws as [|c ws IH]; simpl; [reflexivity|].
  intros H; apply andb_prop in H as [Hc Hws].
  rewrite Hc; auto.
Qed.

Lemma rstrip_spaces (s ws : pystr) :
  forallb isspace ws = true -> rstrip (s ++ ws) = rstrip s.
Proof.
  intros H; unfold rstrip.
  rewrite rev_app_distr, lstrip_spaces; [reflexivity|].
  rewrite forallb_forall in *; intros c Hc; apply H, in_rev, Hc.
Qed.

(** Whitespace around a text that starts with a non-space is stripped
    from both ends. *)
Lemma strip_surrounded (ws1 ws2 : pystr) (c : N) (s : pystr) :
  forallb isspace ws1 = true -> forallb isspace ws2 = true ->
  isspace c = false ->
  strip (ws1 ++ (c :: s) ++ ws2) = rstrip (c :: s).
Proof.
  intros H1 H2 Hc; unfold strip.
  rewrite lstrip_spaces by assumption.
  simpl; rewrite Hc.
  now apply (rstrip_spaces (c :: s) ws2).
Qed.

(** ** The rating decoder *)

Lemma only_markers_filtered (l : list pystr) :
  (forall c, In c l -> is_marker c = true) ->
  filter (fun c => negb (is_marker c)) l = [].
Proof.
  induction l as [|c l IH]; intros H; simpl; [reflexivity|].
  rewrite (H c (or_introl eq_refl)); simpl.
  apply IH; intros; apply H; now right.
Qed.

Lemma mapping_sound (word : pystr) (n : Z) :
  In (word, n) mapping ->
  dict_get mapping word = Some n /\ str_eqb word (py "star-rating") = false
  /\ (1 <= n <= 5)%Z.
Proof.
  unfold mapping; simpl.
  intros [H|[H|[H|[H|[H|[]]]]]]; inversion H; subst; repeat split; try reflexivity; lia.
Qed.

Lemma dict_get_missing {V : Type} (d : list (pystr * V)) (key : pystr) :
  ~ In key (map fst d) -> dict_get d key = None.
Proof.
  induction d as [|[k v] d IH]; simpl; intros H; [reflexivity|].
  destruct (str_eqb k key) eqn:E.
  - apply str_eqb_eq in E; tauto.
  - apply IH; tauto.
Qed.

Lemma mapping_complete (word : pystr) :
  ~ In word rank_words -> dict_get mapping word = None.
Proof. apply dict_get_missing. Qed.

(** The decoder looks only at the first token that is not the marker. *)
Lemma first_remaining_token (t : tag) (before after : list pystr) (w : pystr) :
  class_tokens t = before ++ w :: after ->
  (forall c, In c before -> is_marker c = true) ->
  is_marker w = false ->
  extract_rating_int (Some t) = Ok (dict_get mapping (lower w)).
Proof.
  unfold extract_rating_int, class_tokens; intros -> Hb Hw.
  rewrite filter_app, (only_markers_filtered before Hb); simpl.
  rewrite Hw; reflexivity.
Qed.

(** Every path through the decoder ends in a value. *)
Lemma rating_total (star_tag : option tag) :
  exists r, extract_rating_int star_tag = Ok r.
Proof.
  destruct star_tag as [t|]; [|now exists None].
  unfold extract_rating_int.
  destruct (filter _ _) as [|w ws]; [now exists None|].
  simpl; eauto.
Qed.

(** C1.  When the class tokens of a rating indicator are the marker
    token, written in any case, and exactly one rank word [w], written
    in any case, the decoder returns the integer the mapping gives that
    word, which is between 1 and 5. *)
Theorem C1_rank_word_decoded :
  forall (t : tag) (before after : list pystr) (w : pystr) (n : Z),
    tag_classes t = Some (before ++ w :: after) ->
    (forall c, In c (before ++ after) -> is_marker c = true) ->
    In (lower w, n) mapping ->
    extract_rating_int (Some t) = Ok (Some n) /\ (1 <= n <= 5)%Z.
Proof.
  intros t before after w n Ht Hm Hw.
  destruct (mapping_sound _ _ Hw) as (Hget & Hnot & Hn).
  split; [|exact Hn].
  rewrite (first_remaining_token t before after w).
  - now rewrite Hget.
  - unfold class_tokens; now rewrite Ht.
  - intros c Hc; apply Hm, in_or_app; auto.
  - exact Hnot.
Qed.

(** The token sets of the claim: both decode to 4. *)
Lemma C1_witness :
  extract_rating_int
    (Some (Tag (py "p") (Some [py "Star-Rating"; py "Four"]) [] [])) = Ok (Some 4%Z)
  /\ extract_rating_int
       (Some (Tag (py "p") (Some [py "star-rating"; py "FOUR"]) [] [])) = Ok (Some 4%Z).
Proof.
  split.
  - apply (C1_rank_word_decoded _ [py "Star-Rating"] [] (py "Four") 4%Z).
    + reflexivity.
    + simpl; intros c [<-|[]]; reflexivity.
    + simpl; tauto.
  - apply (C1_rank_word_decoded _ [py "star-rating"] [] (py "FOUR") 4%Z).
    + reflexivity.
    + simpl; intros c [<-|[]]; reflexivity.
    + simpl; tauto.
Defined.

(** C2.  The decoder never raises: it returns a value for every
    argument, and that value is [None] for an absent indicator, for an
    indicator whose class tokens are all the marker (or that has no
    class), and whenever the first token left after filtering is,
    lowercased, none of one, two, three, four, five. *)
Theorem C2_absent_never_raises :
  (forall star_tag, exists r, extract_rating_int star_tag = Ok r)
  /\ extract_rating_int None = Ok None
  /\ (forall t,
        (forall c, In c (class_tokens t) -> is_marker c = true) ->
        extract_rating_int (Some t) = Ok None)
  /\ (forall t before w after,
        class_tokens t = before ++ w :: after ->
        (forall c, In c before -> is_marker c = true) ->
        is_marker w = false ->
        ~ In (lower w) rank_words ->
        extract_rating_int (Some t) = Ok None).
Proof.
  split; [exact rating_total|split; [reflexivity|split]].
  - intros t H; unfold extract_rating_int; fold (class_tokens t).
    now rewrite only_markers_filtered.
  - intros t before w after Ht Hb Hw Hrank.
    rewrite (first_remaining_token t before after w Ht Hb Hw).
    now rewrite mapping_complete.
Qed.

Lemma C2_witness :
  extract_rating_int
    (Some (Tag (py "p") (Some [py "star-rating"; py "STAR-RATING"]) [] [])) = Ok None
  /\ extract_rating_int
       (Some (Tag (py "p") (Some [py "star-rating"; py "Six"; py "Two"]) [] [])) = Ok None.
Proof.
  destruct C2_absent_never_raises as (_ & _ & Hmarkers & Hother).
  split.
  - apply Hmarkers; simpl; intros c [<-|[<-|[]]]; reflexivity.
  - apply (Hother _ [py "star-rating"] (py "Six") [py "Two"]).
    + reflexivity.
    + simpl; intros c [<-|[]]; reflexivity.
    + reflexivity.
    + unfold rank_words; simpl; intros [H|[H|[H|[H|[H|[]]]]]]; discriminate H.
Defined.

(** ** Extraction of one entry *)

(** [float_51_77] is a binary64 number, and 51.77 lies within half a
    unit in its last place: 2 * |m * 100 - 5177 * 2^47| <= 100. *)
Lemma float_51_77_nearest :
  valid_binary prec emax float_51_77 = true
  /\ (2 * Z.abs (7285979772155331 * 100 - 5177 * 2 ^ 47) <= 100)%Z.
Proof. split; [reflexivity|vm_compute; discriminate]. Qed.

Section ExtractionProperties.

Variable unicode_todecimal : N -> option N.

Abbreviation extract_price := (extract_price unicode_todecimal).
Abbreviation extract_book := (extract_book unicode_todecimal).
Abbreviation for_books := (for_books unicode_todecimal).
Abbreviation parse_price := (parse_price unicode_todecimal).
Abbreviation extracted := (extracted unicode_todecimal).
Abbreviation price_unparsable := (price_unparsable unicode_todecimal).
Abbreviation has_price := (has_price unicode_todecimal).
Abbreviation well_formed := (well_formed unicode_todecimal).

Lemma extracted_length (books : list tag) (rows : list row) :
  extracted books rows -> List.length rows = List.length books.
Proof. intros H; symmetry; exact (Forall2_length H). Qed.

Lemma for_books_extracted (books : list tag) (rows results : list row) :
  extracted books rows ->
  for_books books results = (results ++ rows, None).
Proof.
  intros H; revert results.
  induction H as [|book r books rows Hr _ IH]; intros results; simpl.
  - now rewrite app_nil_r.
  - rewrite Hr, IH, <- app_assoc; reflexivity.
Qed.

(** C7.  When the text of the price element of an entry is the pound
    sign followed by [51.77], with any whitespace before and after,
    the price extracted is the double nearest to 51.77, and that is
    the price of the row built from the entry. *)
Theorem C7_price_51_77 :
  forall (book p : tag) (ws1 ws2 : pystr),
    find (py "p") (Some (py "price_color")) book = Some p ->
    text p = ws1 ++ (pound :: py "51.77") ++ ws2 ->
    forallb isspace ws1 = true ->
    forallb isspace ws2 = true ->
    extract_price book = Ok float_51_77
    /\ forall r, extract_book book = Ok r -> price r = float_51_77.
Proof.
  intros book p ws1 ws2 Hp Htext H1 H2.
  assert (Hprice : extract_price book = Ok float_51_77).
  { unfold extract_price; rewrite Hp; simpl bind.
    rewrite Htext, (strip_surrounded ws1 ws2 pound (py "51.77") H1 H2 eq_refl).
    vm_compute; reflexivity. }
  split; [exact Hprice|].
  intros r; unfold extract_book.
  rewrite Hprice.
  destruct (extract_title book); simpl; [|discriminate].
  destruct (extract_rating_int _); simpl; [|discriminate].
  now intros [= <-].
Qed.

Lemma well_formed_extracted (book : tag) :
  well_formed book = true -> exists r, extract_book book = Ok r.
Proof.
  unfold well_formed, has_title_link, has_price, extract_book,
    extract_title, extract_price.
  intros H; apply andb_prop in H as [Ht Hp].
  destruct (find (py "h3") None book) as [h3|]; [|discriminate].
  cbn [bind not_none].
  destruct (find (py "a") None h3) as [a|]; [|discriminate].
  destruct (find (py "p") (Some (py "price_color")) book) as [p|]; [|discriminate].
  cbn [bind not_none].
  destruct (parse_price (strip (text p))) as [x|]; [|discriminate].
  destruct (rating_total (find (py "p") (Some (py "star-rating")) book)) as [rt Hrt].
  rewrite Hrt; cbn [bind]; eauto.
Qed.

Lemma all_well_formed_extracted (books : list tag) :
  forallb well_formed books = true -> exists rows, extracted books rows.
Proof.
  induction books as [|book books IH]; simpl; intros H.
  - exists []; constructor.
  - apply andb_prop in H as [Hb Hbs].
    destruct (well_formed_extracted book Hb) as [r Hr].
    destruct (IH Hbs) as [rows Hrows].
    exists (r :: rows); now constructor.
Qed.

Lemma bad_price_raises (book : tag) :
  price_missing book \/ price_unparsable book ->
  exists e, extract_book book = Raise e.
Proof.
  unfold extract_book, extract_price, price_missing, price_unparsable.
  intros H.
  destruct (extract_title book) as [t|e]; simpl; [|eauto].
  destruct H as [-> | (p & -> & Hp)]; simpl; [eauto|].
  unfold parse_price; rewrite Hp; simpl; eauto.
Qed.

(** The loop over the entries stops at the first one that raises:
    the rows appended are those of the entries before it. *)
Lemma for_books_stops (pre post : list tag) (book : tag) (results : list row) :
  (exists e, extract_book book = Raise e) ->
  exists before stopped rest rows e,
    pre ++ book :: post = before ++ stopped :: rest
    /\ (List.length before <= List.length pre)%nat
    /\ extracted before rows
    /\ extract_book stopped = Raise e
    /\ for_books (pre ++ book :: post) results = (results ++ rows, Some e).
Proof.
  intros [e He]; revert results.
  induction pre as [|b pre IH]; intros results.
  - exists [], book, post, [], e; simpl; rewrite He, app_nil_r.
    repeat split; auto; constructor.
  - destruct (extract_book b) as [r|e'] eqn:Hb.
    + destruct (IH (results ++ [r])) as (before & stopped & rest & rows & e1 & Heq & Hlen & Hrows & Hst & Hfor).
      exists (b :: before), stopped, rest, (r :: rows), e1; simpl.
      rewrite Hb, Hfor, <- app_assoc, Heq.
      repeat split; auto; [lia|now constructor].
    + exists [], b, (pre ++ book :: post), [], e'; simpl.
      rewrite Hb, app_nil_r.
      repeat split; auto; [lia|constructor].
Qed.

(** C10.  When the heading link of an entry has no [title] attribute,
    reading the title does not raise and gives the empty string; as
    soon as the price of the entry extracts, the entry yields a row
    with that title, and the loop over the entries (of the full run
    and of test mode alike) appends it and goes on. *)
Theorem C10_missing_title_is_empty :
  forall (book h3 a : tag),
    find (py "h3") None book = Some h3 ->
    find (py "a") None h3 = Some a ->
    get_attr a (py "title") = None ->
    extract_title book = Ok []
    /\ forall x, extract_price book = Ok x ->
         exists rt,
           extract_book book = Ok (mkRow [] x rt)
           /\ forall books results,
                for_books (book :: books) results
                = for_books books (results ++ [mkRow [] x rt]).
Proof.
  intros book h3 a Hh3 Ha Htitle.
  assert (Ht : extract_title book = Ok []).
  { unfold extract_title, get_default.
    rewrite Hh3; simpl; rewrite Ha; simpl; now rewrite Htitle. }
  split; [exact Ht|].
  intros x Hx.
  destruct (rating_total (find (py "p") (Some (py "star-rating")) book)) as [rt Hrt].
  assert (Hbook : extract_book book = Ok (mkRow [] x rt))
    by (unfold extract_book; rewrite Ht, Hx; simpl; now rewrite Hrt).
  exists rt; split; [exact Hbook|].
  intros books results; simpl; now rewrite Hbook.
Qed.

End ExtractionProperties.

(** ** The pagination driver *)

Lemma requests_of_app (l1 l2 : list event) :
  requests_of (l1 ++ l2) = requests_of l1 ++ requests_of l2.
Proof.
  induction l1 as [|[u|pn n|s|r|n] l1 IH]; simpl; now rewrite ?IH.
Qed.

Section DriverProperties.

Variable unicode_todecimal : N -> option N.
Variable urljoin : pystr -> pystr -> pystr.
Variable requests_get : list pystr -> pystr -> get_outcome.

Abbreviation for_books := (for_books unicode_todecimal).
Abbreviation extract_book := (extract_book unicode_todecimal).
Abbreviation extracted := (extracted unicode_todecimal).
Abbreviation well_formed := (well_formed unicode_todecimal).
Abbreviation scrape_loop := (scrape_loop unicode_todecimal urljoin requests_get).
Abbreviation scrape_all_pages :=
  (scrape_all_pages unicode_todecimal urljoin requests_get).
Abbreviation trail := (trail urljoin requests_get).

(** One turn of the loop, by cases. *)
Lemma scrape_loop_S (fuel : nat) (url : pystr) (results : list row)
    (page_num : Z) (log : list event) :
  scrape_loop (S fuel) url results page_num log =
  match requests_get (requests_of log) url with
  | Fails e => (log ++ [EGet url], Raised (RequestException e))
  | Responds r =>
      if is_error_status (status_code r)
      then (log ++ [EGet url], Raised (HTTPError (status_code r)))
      else
        let books := item_containers (soup r) in
        match books with
        | [] => (log ++ [EGet url], Returned results)
        | _ :: _ =>
            match for_books books results with
            | (_, Some e) => (log ++ [EGet url], Raised e)
            | (results', None) =>
                let log2 := log ++ [EGet url; EPrint page_num (List.length books)] in
                match next_link (soup r) with
                | None => (log2, Returned results')
                | Some a =>
                    match get_attr a (py "href") with
                    | None => (log2, Raised (KeyError (py "href")))
                    | Some href =>
                        scrape_loop fuel (urljoin url href) results'
                          (page_num + 1) (log2 ++ [ESleep 1])
                    end
                end
            end
        end
  end.
Proof.
  cbn [scrape_loop].
  destruct (requests_get (requests_of log) url) as [r|e]; [|reflexivity].
  unfold raise_for_status, item_containers, next_link, next_marker, getitem.
  destruct (is_error_status (status_code r)); [reflexivity|].
  cbv zeta.
  destruct (find_all (py "article") (Some (py "product_pod")) (soup r)) as [|b bs];
    [reflexivity|].
  cbn [is_nil].
  destruct (for_books (b :: bs) results) as [results' [e|]]; [reflexivity|].
  rewrite <- !app_assoc; cbn [app].
  destruct (find (py "li") (Some (py "next")) (soup r)) as [li|]; [|reflexivity].
  destruct (find (py "a") None li) as [a|]; [|reflexivity].
  destruct (get_attr a (py "href")); reflexivity.
Qed.

Lemma scrape_loop_trail (fuel : nat) :
  forall url results page_num log,
  exists t,
    requests_of (fst (scrape_loop fuel url results page_num log))
    = requests_of log ++ t
    /\ trail (requests_of log) url t
         (snd (scrape_loop fuel url results page_num log)).
Proof.
  induction fuel as [|fuel IH]; intros url results page_num log.
  - exists []; simpl; rewrite app_nil_r; split; [reflexivity|constructor].
  - rewrite scrape_loop_S.
    destruct (requests_get (requests_of log) url) as [r|e] eqn:Hget.
    2:{ exists [url]; simpl; rewrite requests_of_app; split; [reflexivity|].
        apply trail_failed; now rewrite Hget. }
    destruct (is_error_status (status_code r)) eqn:Hst.
    { exists [url]; simpl; rewrite requests_of_app; split; [reflexivity|].
      apply trail_failed; rewrite Hget; simpl; now rewrite Hst. }
    assert (Hok : fetch_error (requests_get (requests_of log) url) = None)
      by (rewrite Hget; simpl; now rewrite Hst).
    cbv zeta.
    destruct (item_containers (soup r)) as [|b bs].
    { exists [url]; simpl; rewrite requests_of_app; split; [reflexivity|].
      apply trail_last; [exact Hok|discriminate]. }
    destruct (for_books (b :: bs) results) as [results' [e|]].
    { exists [url]; simpl; rewrite requests_of_app; split; [reflexivity|].
      apply trail_last; [exact Hok|discriminate]. }
    destruct (next_link (soup r)) as [a|] eqn:Hlink.
    2:{ exists [url]; simpl; rewrite requests_of_app; split; [reflexivity|].
        apply trail_last; [exact Hok|discriminate]. }
    destruct (get_attr a (py "href")) as [href|] eqn:Hhref.
    2:{ exists [url]; simpl; rewrite requests_of_app; split; [reflexivity|].
        apply trail_last; [exact Hok|discriminate]. }
    match goal with
    | |- context [scrape_loop fuel ?u ?rs ?pn ?l] =>
        destruct (IH u rs pn l) as (t & Ht & Htrail);
        assert (Hl : requests_of l = requests_of log ++ [url])
          by (rewrite !requests_of_app; simpl; now rewrite app_nil_r)
    end.
    rewrite Hl in Ht, Htrail.
    exists (url :: t); split.
    + rewrite Ht, <- app_assoc; reflexivity.
    + eapply trail_next; eauto.
Qed.

(** A run that ended is not changed by more fuel. *)
Lemma scrape_loop_more_fuel (fuel extra : nat) :
  forall url results page_num log,
    snd (scrape_loop fuel url results page_num log) <> Running ->
    scrape_loop (fuel + extra) url results page_num log
    = scrape_loop fuel url results page_num log.
Proof.
  induction fuel as [|fuel IH]; intros url results page_num log.
  - simpl; congruence.
  - change (S fuel + extra)%nat with (S (fuel + extra)).
    rewrite !scrape_loop_S.
    destruct (requests_get (requests_of log) url) as [r|e]; [|reflexivity].
    destruct (is_error_status (status_code r)); [reflexivity|].
    cbv zeta.
    destruct (item_containers (soup r)) as [|b bs]; [reflexivity|].
    destruct (for_books (b :: bs) results) as [results' [e|]]; [reflexivity|].
    destruct (next_link (soup r)) as [a|]; [|reflexivity].
    destruct (get_attr a (py "href")) as [href|]; [|reflexivity].
    apply IH.
Qed.

Lemma trail_head (history : list pystr) (url : pystr) (t : list pystr)
    (out : outcome) :
  trail history url t out -> t = [] \/ exists rest, t = url :: rest.
Proof. intros [ | | | ]; eauto. Qed.

(** A request that fails is the last of its trail. *)
Lemma trail_failed_request (history : list pystr) (url : pystr)
    (t : list pystr) (out : outcome) :
  trail history url t out ->
  forall pre u post e,
    t = pre ++ u :: post ->
    fetch_error (requests_get (history ++ pre) u) = Some e ->
    post = [] /\ out = Raised e.
Proof.
  induction 1 as [history url|history url e0 H0|history url out H0 Hout
                 |history url r a href rest out Hget Hst Hlink Hhref Hrest IH];
    intros pre u post e Heq He.
  - now destruct pre.
  - destruct pre as [|x [|y pre]]; try discriminate.
    injection Heq as -> ->.
    rewrite app_nil_r in He; split; congruence.
  - destruct pre as [|x [|y pre]]; try discriminate.
    injection Heq as -> ->.
    rewrite app_nil_r in He; congruence.
  - destruct pre as [|x pre]; simpl in Heq; injection Heq as -> ->.
    + rewrite app_nil_r, Hget in He; simpl in He; rewrite Hst in He; discriminate.
    + apply (IH pre u post e eq_refl).
      now rewrite <- app_assoc.
Qed.

(** Two requests in a row: the second URL is the next link of the
    page the first one got, joined to the first URL. *)
Lemma trail_consecutive (history : list pystr) (url : pystr)
    (t : list pystr) (out : outcome) :
  trail history url t out ->
  forall pre u u' post,
    t = pre ++ u :: u' :: post ->
    exists r a href,
      requests_get (history ++ pre) u = Responds r
      /\ is_error_status (status_code r) = false
      /\ next_link (soup r) = Some a
      /\ get_attr a (py "href") = Some href
      /\ u' = urljoin u href.
Proof.
  induction 1 as [history url|history url e0 H0|history url out H0 Hout
                 |history url r a href rest out Hget Hst Hlink Hhref Hrest IH];
    intros pre u u' post Heq.
  - now destruct pre.
  - destruct pre as [|x [|y pre]]; discriminate.
  - destruct pre as [|x [|y pre]]; discriminate.
  - destruct pre as [|x pre]; simpl in Heq; injection Heq as -> Heq.
    + destruct (trail_head _ _ _ _ Hrest) as [->|[rest' ->]]; [discriminate|].
      injection Heq as <- _.
      exists r, a, href; rewrite app_nil_r; auto.
    + destruct (IH pre u u' post Heq) as (r' & a' & href' & H').
      exists r', a', href'; now rewrite <- app_assoc in H'.
Qed.

Lemma next_marker_link (page : tag) (a : tag) :
  next_link page = Some a ->
  exists next_li,
    find (py "li") (Some (py "next")) page = Some next_li
    /\ find (py "a") None next_li = Some a.
Proof.
  unfold next_link, next_marker.
  destruct (find (py "li") (Some (py "next")) page) as [li|]; [eauto|discriminate].
Qed.

(** A page whose entries all extract and that has no next link ends
    the loop, which returns the rows gathered so far and its own. *)
Lemma last_page (fuel : nat) (url : pystr) (results rows : list row)
    (page_num : Z) (log : list event) (r : response) :
  requests_get (requests_of log) url = Responds r ->
  is_error_status (status_code r) = false ->
  extracted (item_containers (soup r)) rows ->
  next_link (soup r) = None ->
  exists log',
    scrape_loop (S fuel) url results page_num log
    = (log', Returned (results ++ rows))
    /\ requests_of log' = requests_of log ++ [url].
Proof.
  intros Hget Hst Hrows Hlink.
  rewrite scrape_loop_S, Hget, Hst; cbv zeta.
  destruct (item_containers (soup r)) as [|b bs] eqn:Hbooks.
  - inversion Hrows; subst; rewrite app_nil_r.
    eexists; split; [reflexivity|].
    rewrite requests_of_app; reflexivity.
  - rewrite (for_books_extracted unicode_todecimal _ _ results Hrows), Hlink.
    eexists; split; [reflexivity|].
    rewrite requests_of_app; reflexivity.
Qed.

(** A page with entries, all of which extract, and a next link is
    followed: the loop goes on from the joined URL. *)
Lemma linked_page (fuel : nat) (url : pystr) (results rows : list row)
    (page_num : Z) (log : list event) (r : response) (a : tag) (href : pystr) :
  requests_get (requests_of log) url = Responds r ->
  is_error_status (status_code r) = false ->
  item_containers (soup r) <> [] ->
  extracted (item_containers (soup r)) rows ->
  next_link (soup r) = Some a ->
  get_attr a (py "href") = Some href ->
  scrape_loop (S fuel) url results page_num log
  = scrape_loop fuel (urljoin url href) (results ++ rows) (page_num + 1)
      (log ++ [EGet url; EPrint page_num (List.length (item_containers (soup r)));
               ESleep 1]).
Proof.
  intros Hget Hst Hne Hrows Hlink Hhref.
  rewrite scrape_loop_S, Hget, Hst; cbv zeta.
  destruct (item_containers (soup r)) as [|b bs] eqn:Hbooks; [congruence|].
  rewrite (for_books_extracted unicode_todecimal _ _ results Hrows), Hlink, Hhref.
  now rewrite <- app_assoc.
Qed.

(** A GET that fails ends the loop at once, whatever was gathered. *)
Lemma failed_fetch_raises (fuel : nat) (url : pystr) (results : list row)
    (page_num : Z) (log : list event) (e : exn) :
  fetch_error (requests_get (requests_of log) url) = Some e ->
  scrape_loop (S fuel) url results page_num log = (log ++ [EGet url], Raised e).
Proof.
  rewrite scrape_loop_S; unfold fetch_error.
  destruct (requests_get (requests_of log) url) as [r|t].
  - destruct (is_error_status (status_code r)); [|discriminate].
    now intros [= <-].
  - now intros [= <-].
Qed.

(** C3, amended.  When the first GET returns, without an error status,
    a page with N book entries, each with a heading link and a price
    that parses, and no next marker, the driver makes that one request
    and returns N rows, those of the entries in order. *)
Theorem C3_single_page :
  forall (base_url : pystr) (r : response) (fuel : nat),
    requests_get [] base_url = Responds r ->
    is_error_status (status_code r) = false ->
    forallb well_formed (item_containers (soup r)) = true ->
    next_marker (soup r) = None ->
    exists log rows,
      scrape_all_pages (S fuel) base_url = (log, Returned rows)
      /\ requests_of log = [base_url]
      /\ List.length rows = List.length (item_containers (soup r))
      /\ extracted (item_containers (soup r)) rows.
Proof.
  intros base_url r fuel Hget Hst Hwf Hnext.
  destruct (all_well_formed_extracted _ _ Hwf) as [rows Hrows].
  destruct (last_page fuel base_url [] rows 1 [] r Hget Hst Hrows) as (log & Hrun & Hlog).
  { unfold next_link; now rewrite Hnext. }
  exists log, rows; repeat split; auto.
  now apply extracted_length in Hrows.
Qed.

(** C4, amended.  When the first page is returned without an error
    status, has at least one book entry and a next link, the URL that
    link resolves to returns, without an error status, a page with no
    next link, and every entry of both pages has a heading link and a
    price that parses, the driver makes exactly these two requests in
    this order and returns the rows of page 1 followed by the rows of
    page 2, each page's rows in the order of its entries. *)
Theorem C4_two_pages :
  forall (base_url : pystr) (r1 r2 : response) (a : tag) (href : pystr)
         (fuel : nat),
    requests_get [] base_url = Responds r1 ->
    is_error_status (status_code r1) = false ->
    item_containers (soup r1) <> [] ->
    forallb well_formed (item_containers (soup r1)) = true ->
    next_link (soup r1) = Some a ->
    get_attr a (py "href") = Some href ->
    requests_get [base_url] (urljoin base_url href) = Responds r2 ->
    is_error_status (status_code r2) = false ->
    forallb well_formed (item_containers (soup r2)) = true ->
    next_link (soup r2) = None ->
    exists log rows1 rows2,
      scrape_all_pages (S (S fuel)) base_url = (log, Returned (rows1 ++ rows2))
      /\ requests_of log = [base_url; urljoin base_url href]
      /\ extracted (item_containers (soup r1)) rows1
      /\ extracted (item_containers (soup r2)) rows2.
Proof.
  intros base_url r1 r2 a href fuel Hget1 Hst1 Hne Hwf1 Hlink1 Hhref
    Hget2 Hst2 Hwf2 Hlink2.
  destruct (all_well_formed_extracted _ _ Hwf1) as [rows1 Hrows1].
  destruct (all_well_formed_extracted _ _ Hwf2) as [rows2 Hrows2].
  unfold scrape_all_pages.
  rewrite (linked_page (S fuel) base_url [] rows1 1 [] r1 a href
             Hget1 Hst1 Hne Hrows1 Hlink1 Hhref).
  match goal with
  | |- context [scrape_loop (S fuel) ?u ?rs ?pn ?l] =>
      destruct (last_page fuel u rs rows2 pn l r2) as (log & Hrun & Hlog); auto
  end.
  exists log, rows1, rows2; repeat split; auto.
Qed.

(** C5.  When the first page, returned without an error status, has no
    book entry, the run makes that one request and returns no row; it
    does not raise. *)
Theorem C5_empty_first_page :
  forall (base_url : pystr) (r : response) (fuel : nat),
    requests_get [] base_url = Responds r ->
    is_error_status (status_code r) = false ->
    item_containers (soup r) = [] ->
    scrape_all_pages (S fuel) base_url = ([EGet base_url], Returned []).
Proof.
  intros base_url r fuel Hget Hst Hbooks.
  unfold scrape_all_pages.
  rewrite scrape_loop_S; cbn [requests_of].
  now rewrite Hget, Hst, Hbooks.
Qed.

(** C6.  In every run, however long, each request after the first goes
    to the [href] of the link inside the next marker of the page the
    request before it got, joined to the URL of that request: the URL
    of the current page, not the base URL of the run. *)
Theorem C6_next_url_joined_to_current :
  forall (fuel : nat) (base_url : pystr) (pre : list pystr) (u u' : pystr)
         (post : list pystr),
    requests_of (fst (scrape_all_pages fuel base_url)) = pre ++ u :: u' :: post ->
    exists r next_li a href,
      requests_get pre u = Responds r
      /\ find (py "li") (Some (py "next")) (soup r) = Some next_li
      /\ find (py "a") None next_li = Some a
      /\ get_attr a (py "href") = Some href
      /\ u' = urljoin u href.
Proof.
  intros fuel base_url pre u u' post Hreq.
  destruct (scrape_loop_trail fuel base_url [] 1 []) as (t & Ht & Htrail).
  simpl in Ht, Htrail; unfold scrape_all_pages in Hreq.
  rewrite Ht in Hreq.
  destruct (trail_consecutive _ _ _ _ Htrail pre u u' post Hreq)
    as (r & a & href & Hget & _ & Hlink & Hhref & Hu).
  destruct (next_marker_link _ _ Hlink) as (li & Hli & Ha).
  exists r, li, a, href; auto.
Qed.

(** C8.  When a page the loop gets has a book entry with no price
    element, or with a price text that is not a number once the
    currency sign is removed, [scrape_all_pages] raises during that
    turn of the loop: nothing is printed or requested after the GET.
    The loop over the entries stopped at an entry at or before that
    one; only the entries before the one it stopped at gave a row. *)
Theorem C8_bad_price_aborts :
  forall (fuel : nat) (url : pystr) (results : list row) (page_num : Z)
         (log : list event) (r : response) (pre post : list tag) (book : tag),
    requests_get (requests_of log) url = Responds r ->
    is_error_status (status_code r) = false ->
    item_containers (soup r) = pre ++ book :: post ->
    price_missing book \/ price_unparsable unicode_todecimal book ->
    exists before stopped rest rows e,
      pre ++ book :: post = before ++ stopped :: rest
      /\ (List.length before <= List.length pre)%nat
      /\ extracted before rows
      /\ extract_book stopped = Raise e
      /\ for_books (pre ++ book :: post) results = (results ++ rows, Some e)
      /\ scrape_loop (S fuel) url results page_num log
         = (log ++ [EGet url], Raised e).
Proof.
  intros fuel url results page_num log r pre post book Hget Hst Hbooks Hbad.
  destruct (for_books_stops unicode_todecimal pre post book results
              (bad_price_raises _ _ Hbad))
    as (before & stopped & rest & rows & e & Heq & Hlen & Hrows & Hstop & Hfor).
  exists before, stopped, rest, rows, e; repeat split; auto.
  rewrite scrape_loop_S, Hget, Hst, Hbooks; cbv zeta.
  rewrite Hfor.
  destruct (pre ++ book :: post) eqn:E; [now destruct pre|reflexivity].
Qed.

(** C9, amended.  A GET that raises, or that returns a 4xx or 5xx
    status, is the last request of the run, and the run raises that
    error: there is no retry, no further page, and no rows returned. *)
Theorem C9_failed_fetch_aborts :
  forall (fuel : nat) (base_url : pystr) (pre : list pystr) (u : pystr)
         (post : list pystr) (e : exn),
    requests_of (fst (scrape_all_pages fuel base_url)) = pre ++ u :: post ->
    fetch_error (requests_get pre u) = Some e ->
    post = [] /\ snd (scrape_all_pages fuel base_url) = Raised e.
Proof.
  intros fuel base_url pre u post e Hreq He.
  destruct (scrape_loop_trail fuel base_url [] 1 []) as (t & Ht & Htrail).
  simpl in Ht, Htrail; unfold scrape_all_pages in *.
  rewrite Ht in Hreq.
  exact (trail_failed_request _ _ _ _ Htrail pre u post e Hreq He).
Qed.

End DriverProperties.

(** * Further properties of the decoder and of the extraction *)

Lemma Ok_inj {A : Type} (a b : A) : Ok a = Ok b -> a = b.
Proof. now intros [= ->]. Qed.

Lemma dict_get_value {V : Type} (d : list (pystr * V)) (key : pystr) (v : V) :
  dict_get d key = Some v -> In v (map snd d).
Proof.
  induction d as [|[k x] d IH]; simpl; [discriminate|].
  destruct (str_eqb k key); [intros [= <-]; now left|auto].
Qed.

Lemma filter_lowered (l : list pystr) :
  filter (fun c => negb (str_eqb c (py "star-rating"))) (map lower l)
  = map lower (filter (fun c => negb (is_marker c)) l).
Proof.
  induction l as [|c l IH]; [reflexivity|].
  cbn [filter map]; unfold is_marker at 1.
  destruct (str_eqb (lower c) (py "star-rating")); cbn [negb map]; now rewrite IH.
Qed.

Lemma extract_rating_lowered (t : tag) :
  extract_rating_int (Some t) = Ok (decode_lowered (map lower (class_tokens t))).
Proof.
  unfold extract_rating_int, decode_lowered; fold (class_tokens t).
  rewrite filter_lowered.
  destruct (filter _ (class_tokens t)); reflexivity.
Qed.

Lemma rating_bounds (star_tag : option tag) (n : Z) :
  extract_rating_int star_tag = Ok (Some n) -> (1 <= n <= 5)%Z.
Proof.
  destruct star_tag as [t|]; [|discriminate].
  rewrite extract_rating_lowered; unfold decode_lowered.
  destruct (filter _ _) as [|word ws]; [discriminate|].
  intros H; apply Ok_inj, dict_get_value in H.
  unfold mapping in H; cbn [map snd In] in H.
  destruct H as [H|[H|[H|[H|[H|[]]]]]]; subst; lia.
Qed.

(** X1.  A rating the decoder returns is an integer from 1 to 5. *)
Theorem rating_in_range :
  forall (star_tag : option tag) (n : Z),
    extract_rating_int star_tag = Ok (Some n) -> (1 <= n <= 5)%Z.
Proof.
  exact rating_bounds.
Qed.

(** X2.  Only the first token that is not the marker counts: the
    tokens after it, rank words included, change nothing. *)
Theorem rating_first_token_decides :
  forall (t t' : tag) (before after : list pystr) (w : pystr),
    class_tokens t = before ++ w :: after ->
    (forall c, In c before -> is_marker c = true) ->
    is_marker w = false ->
    class_tokens t' = [w] ->
    extract_rating_int (Some t) = extract_rating_int (Some t').
Proof.
  intros t t' before after w Ht Hb Hw Ht'.
  rewrite (first_remaining_token t before after w Ht Hb Hw).
  symmetry; apply (first_remaining_token t' [] [] w Ht'); [intros c []|exact Hw].
Qed.

(** X3.  The decoder does not see the case of the tokens: two
    indicators whose tokens agree once lowercased decode alike. *)
Theorem rating_case_insensitive :
  forall (t1 t2 : tag),
    map lower (class_tokens t1) = map lower (class_tokens t2) ->
    extract_rating_int (Some t1) = extract_rating_int (Some t2).
Proof.
  intros t1 t2 H; now rewrite !extract_rating_lowered, H.
Qed.

(** ** Stripping *)

Lemma lstrip_clean (s : pystr) : starts_clean (lstrip s) = true.
Proof.
  induction s as [|c s IH]; [reflexivity|].
  simpl; destruct (isspace c) eqn:E; [exact IH|].
  simpl; now rewrite E.
Qed.

Lemma lstrip_all_spaces (ws : pystr) :
  forallb isspace ws = true -> lstrip ws = [].
Proof.
  intros H; rewrite <- (app_nil_r ws); now rewrite lstrip_spaces.
Qed.

Lemma lstrip_keeps_end (s : pystr) (c : N) :
  isspace c = false -> lstrip (s ++ [c]) = lstrip s ++ [c].
Proof.
  intros Hc; induction s as [|x s IH]; simpl.
  - now rewrite Hc.
  - destruct (isspace x); [exact IH|reflexivity].
Qed.

Lemma lstrip_app (s w : pystr) :
  lstrip (s ++ w) = if forallb isspace s then lstrip w else lstrip s ++ w.
Proof.
  induction s as [|c s IH]; simpl.
  - reflexivity.
  - destruct (isspace c); simpl; [exact IH|reflexivity].
Qed.

(** Whitespace around any text is stripped with it. *)
Lemma strip_spaces_around (ws1 ws2 s : pystr) :
  forallb isspace ws1 = true -> forallb isspace ws2 = true ->
  strip (ws1 ++ s ++ ws2) = strip s.
Proof.
  intros H1 H2; unfold strip.
  rewrite lstrip_spaces by assumption.
  rewrite lstrip_app.
  destruct (forallb isspace s) eqn:E.
  - now rewrite (lstrip_all_spaces ws2 H2), (lstrip_all_spaces s E).
  - now apply rstrip_spaces.
Qed.

Lemma strip_trimmed (s : pystr) : trimmed (strip s) = true.
Proof.
  unfold trimmed, strip, rstrip.
  rewrite rev_involutive, lstrip_clean, andb_true_r.
  pose proof (lstrip_clean s) as H.
  destruct (lstrip s) as [|c y]; [reflexivity|].
  simpl in H; apply negb_true_iff in H.
  cbn [rev]; rewrite (lstrip_keeps_end (rev y) c H), rev_app_distr.
  simpl; now rewrite H.
Qed.

Lemma strip_all_spaces (ws : pystr) :
  forallb isspace ws = true -> strip ws = [].
Proof.
  intros H; unfold strip; now rewrite (lstrip_all_spaces ws H).
Qed.

Section MoreExtractionProperties.

Variable unicode_todecimal : N -> option N.

Abbreviation extract_price := (extract_price unicode_todecimal).
Abbreviation extract_book := (extract_book unicode_todecimal).
Abbreviation for_books := (for_books unicode_todecimal).
Abbreviation parse_price := (parse_price unicode_todecimal).
Abbreviation extracted := (extracted unicode_todecimal).

(** X4.  An entry without a heading, or without a link in its heading,
    raises AttributeError: the title is read first, so this is what
    the entry raises whatever its price element holds. *)
Theorem missing_heading_link_raises :
  forall (book : tag),
    has_title_link book = false ->
    extract_title book = Raise AttributeError
    /\ extract_book book = Raise AttributeError.
Proof.
  intros book H.
  assert (Ht : extract_title book = Raise AttributeError).
  { unfold extract_title, has_title_link in *.
    destruct (find (py "h3") None book) as [h3|]; [|reflexivity].
    cbn [bind not_none].
    destruct (find (py "a") None h3); [discriminate|reflexivity]. }
  split; [exact Ht|].
  unfold extract_book; now rewrite Ht.
Qed.

(** X5.  A title that is extracted has no whitespace at either end,
    and neither has the title of any row. *)
Theorem title_is_trimmed :
  forall (book : tag),
    (forall t, extract_title book = Ok t -> trimmed t = true)
    /\ (forall r, extract_book book = Ok r -> trimmed (title r) = true).
Proof.
  intros book.
  assert (Ht : forall t, extract_title book = Ok t -> trimmed t = true).
  { intros t; unfold extract_title.
    destruct (find (py "h3") None book) as [h3|]; [|discriminate].
    cbn [bind not_none].
    destruct (find (py "a") None h3) as [a|]; [|discriminate].
    cbn [bind not_none].
    intros [= <-]; apply strip_trimmed. }
  split; [exact Ht|].
  intros r; unfold extract_book.
  destruct (extract_title book) as [t|]; [|discriminate].
  cbn [bind].
  destruct (extract_price book); [|discriminate].
  cbn [bind].
  destruct (extract_rating_int _); [|discriminate].
  intros [= <-]; simpl; now apply Ht.
Qed.

Lemma remove_pound_spaces (ws : pystr) :
  forallb isspace ws = true -> remove_char pound ws = ws.
Proof.
  unfold remove_char; induction ws as [|c ws IH]; simpl; [reflexivity|].
  intros H; apply andb_prop in H as [Hc Hws].
  destruct (c =? pound) eqn:E.
  - apply N.eqb_eq in E; subst; discriminate.
  - simpl; now rewrite IH.
Qed.

(** X6.  The price parser drops every currency sign, wherever it
    stands in the text, and the whitespace around the text. *)
Theorem price_ignores_pound_and_spaces :
  forall (ws1 ws2 a b : pystr),
    forallb isspace ws1 = true ->
    forallb isspace ws2 = true ->
    parse_price (ws1 ++ (a ++ pound :: b) ++ ws2) = parse_price (a ++ b).
Proof.
  intros ws1 ws2 a b H1 H2; unfold parse_price, remove_char.
  rewrite !filter_app; cbn [filter].
  rewrite N.eqb_refl; cbn [negb].
  fold (remove_char pound ws1) (remove_char pound ws2).
  rewrite (remove_pound_spaces ws1 H1), (remove_pound_spaces ws2 H2).
  now rewrite strip_spaces_around.
Qed.

(** X7.  A price text made of whitespace and currency signs only, the
    empty text included, is not a number: ValueError. *)
Theorem blank_price_raises :
  forall (price_text : pystr),
    forallb space_or_pound price_text = true ->
    parse_price price_text = Raise ValueError.
Proof.
  intros s H; unfold parse_price.
  rewrite strip_all_spaces; [reflexivity|].
  unfold remove_char; induction s as [|c s IH]; [reflexivity|].
  simpl in H; apply andb_prop in H as [Hc Hs].
  cbn [filter]; destruct (c =? pound) eqn:E; cbn [negb]; [now apply IH|].
  unfold space_or_pound in Hc; rewrite E, orb_false_r in Hc.
  simpl; now rewrite Hc, IH.
Qed.

Lemma extract_book_rating (book : tag) (r : row) :
  extract_book book = Ok r -> valid_rating (rating r).
Proof.
  unfold extract_book.
  destruct (extract_title book); [|discriminate].
  cbn [bind].
  destruct (extract_price book); [|discriminate].
  cbn [bind].
  destruct (extract_rating_int _) as [[n|]|] eqn:E; [| |discriminate];
    intros [= <-]; simpl; [|exact I].
  revert E; apply rating_bounds.
Qed.

Lemma float_raises (s : pystr) (e : exn) :
  float unicode_todecimal s = Raise e -> e = ValueError.
Proof.
  unfold float.
  destruct (drop_underscores 0 _); [|now intros [= <-]].
  destruct (parse_float _); [discriminate|now intros [= <-]].
Qed.

Lemma extract_book_raises (book : tag) (e : exn) :
  extract_book book = Raise e -> e = AttributeError \/ e = ValueError.
Proof.
  unfold extract_book, extract_title, extract_price.
  destruct (find (py "h3") None book) as [h3|]; cbn [bind not_none];
    [|intros [= <-]; now left].
  destruct (find (py "a") None h3) as [a|]; cbn [bind not_none];
    [|intros [= <-]; now left].
  destruct (find (py "p") (Some (py "price_color")) book) as [p|];
    cbn [bind not_none]; [|intros [= <-]; now left].
  destruct (parse_price (strip (text p))) as [x|e'] eqn:E; cbn [bind].
  - destruct (rating_total (find (py "p") (Some (py "star-rating")) book))
      as [rt ->].
    discriminate.
  - intros [= <-]; right; exact (float_raises _ _ E).
Qed.

(** The loop over the entries, by its result. *)
Lemma for_books_result (books : list tag) :
  forall results,
  exists rows,
    fst (for_books books results) = results ++ rows
    /\ extracted (firstn (List.length rows) books) rows
    /\ match snd (for_books books results) with
       | None => List.length rows = List.length books
       | Some e =>
           (List.length rows < List.length books)%nat
           /\ exists book, nth_error books (List.length rows) = Some book
                           /\ extract_book book = Raise e
       end.
Proof.
  induction books as [|book books IH]; intros results.
  - exists []; simpl; rewrite app_nil_r; repeat split; constructor.
  - cbn [for_books].
    destruct (extract_book book) as [r|e] eqn:E.
    + destruct (IH (results ++ [r])) as (rows & Hfst & Hrows & Hsnd).
      exists (r :: rows); rewrite Hfst, <- app_assoc.
      split; [reflexivity|split; [now constructor|]].
      destruct (snd _); simpl.
      * destruct Hsnd as (Hlt & Hb); split; [lia|exact Hb].
      * now rewrite Hsnd.
    + exists []; simpl; rewrite app_nil_r.
      split; [reflexivity|split; [constructor|]].
      split; [lia|eauto].
Qed.

Lemma for_books_none (books : list tag) (results results' : list row) :
  for_books books results = (results', None) ->
  exists rows, results' = results ++ rows /\ extracted books rows.
Proof.
  intros H; destruct (for_books_result books results) as (rows & Hfst & Hrows & Hsnd).
  rewrite H in Hfst, Hsnd; simpl in Hfst, Hsnd.
  exists rows; split; [exact Hfst|].
  rewrite Hsnd, firstn_all in Hrows; exact Hrows.
Qed.

Lemma for_books_some (books : list tag) (results results' : list row) (e : exn) :
  for_books books results = (results', Some e) ->
  e = AttributeError \/ e = ValueError.
Proof.
  intros H; destruct (for_books_result books results) as (rows & _ & _ & Hsnd).
  rewrite H in Hsnd; simpl in Hsnd.
  destruct Hsnd as (_ & book & _ & Hb); exact (extract_book_raises _ _ Hb).
Qed.

(** X8.  The loop over the entries only appends: the rows it had are
    kept, in their order, and the rows it adds are those of the
    entries it went through, in the order of the entries.  It goes
    through all of them, or stops at the first entry that raises, with
    the exception of that entry. *)
Theorem for_books_only_appends :
  forall (books : list tag) (results : list row),
  exists rows,
    fst (for_books books results) = results ++ rows
    /\ extracted (firstn (List.length rows) books) rows
    /\ match snd (for_books books results) with
       | None => List.length rows = List.length books
       | Some e =>
           (List.length rows < List.length books)%nat
           /\ exists book, nth_error books (List.length rows) = Some book
                           /\ extract_book book = Raise e
       end.
Proof. exact for_books_result. Qed.

Lemma extract_book_valid (book : tag) (r : row) :
  extract_book book = Ok r ->
  trimmed (title r) = true /\ valid_rating (rating r).
Proof.
  intros H; split; [|exact (extract_book_rating book r H)].
  revert H; unfold extract_book, extract_title.
  destruct (find (py "h3") None book) as [h3|]; [|discriminate].
  cbn [bind not_none].
  destruct (find (py "a") None h3) as [a|]; [|discriminate].
  cbn [bind not_none].
  destruct (extract_price book); [|discriminate].
  cbn [bind].
  destruct (extract_rating_int _); [|discriminate].
  intros [= <-]; simpl; apply strip_trimmed.
Qed.

End MoreExtractionProperties.

(** * Further properties of the driver *)

Lemma pacing_app (l1 l2 : list event) :
  pacing (l1 ++ l2) = pacing l1 ++ pacing l2.
Proof. apply filter_app. Qed.

Lemma page_numbers_app (l1 l2 : list event) :
  page_numbers (l1 ++ l2) = page_numbers l1 ++ page_numbers l2.
Proof.
  induction l1 as [|[u|pn n|s|r|n] l1 IH]; simpl; now rewrite ?IH.
Qed.

Lemma count_from_length (first : Z) (n : nat) :
  List.length (count_from first n) = n.
Proof. revert first; induction n; intros; simpl; auto. Qed.

Lemma error_status_range (status : Z) :
  is_error_status status = true -> (400 <= status < 600)%Z.
Proof.
  unfold is_error_status; intros H; apply andb_prop in H as [H1 H2].
  apply Z.leb_le in H1; apply Z.ltb_lt in H2; lia.
Qed.

Section MoreDriverProperties.

Variable unicode_todecimal : N -> option N.
Variable urljoin : pystr -> pystr -> pystr.
Variable requests_get : list pystr -> pystr -> get_outcome.

Abbreviation for_books := (for_books unicode_todecimal).
Abbreviation extract_book := (extract_book unicode_todecimal).
Abbreviation extracted := (extracted unicode_todecimal).
Abbreviation scrape_loop := (scrape_loop unicode_todecimal urljoin requests_get).
Abbreviation scrape_all_pages :=
  (scrape_all_pages unicode_todecimal urljoin requests_get).
Abbreviation gathered := (gathered unicode_todecimal urljoin requests_get).
Abbreviation test_mode := (test_mode unicode_todecimal requests_get).

(** The cases of one turn of the loop, each with what it leaves. *)
Ltac loop_turn r b bs results' e a href Hget Hst Hbooks Hfor Hlink Hhref :=
  rewrite scrape_loop_S;
  match goal with
  | |- context [requests_get ?h ?u] =>
      destruct (requests_get h u) as [r|e] eqn:Hget
  end;
  [ destruct (is_error_status (status_code r)) eqn:Hst;
    [ | cbv zeta;
        destruct (item_containers (soup r)) as [|b bs] eqn:Hbooks;
        [ | match goal with
            | |- context [for_books ?l ?rs] =>
                destruct (for_books l rs) as [results' [e|]] eqn:Hfor
            end;
            [ | destruct (next_link (soup r)) as [a|] eqn:Hlink;
                [ destruct (get_attr a (py "href")) as [href|] eqn:Hhref | ] ] ] ]
  | ].

Lemma loop_returned_gathered (fuel : nat) :
  forall url results page_num log log' df,
    scrape_loop fuel url results page_num log = (log', Returned df) ->
    exists requests rows,
      requests_of log' = requests_of log ++ requests
      /\ df = results ++ rows
      /\ gathered (requests_of log) url requests rows.
Proof.
  induction fuel as [|fuel IH]; intros url results page_num log log' df;
    [discriminate|].
  loop_turn r b bs results' e a href Hget Hst Hbooks Hfor Hlink Hhref;
    try discriminate.
  - intros [= <- <-]; exists [url], [].
    rewrite requests_of_app, app_nil_r; repeat split.
    eapply gathered_stop;
      [exact Hget|exact Hst|rewrite Hbooks; constructor|now left].
  - intros H.
    destruct (for_books_none _ _ _ _ Hfor) as (rows & -> & Hrows).
    apply IH in H as (requests & rows' & Hreq & -> & Hg).
    rewrite !requests_of_app in Hreq, Hg; simpl in Hreq, Hg.
    rewrite app_nil_r in Hreq, Hg.
    exists (url :: requests), (rows ++ rows'); repeat split.
    + now rewrite Hreq, <- app_assoc.
    + now rewrite app_assoc.
    + eapply gathered_next;
        [exact Hget|exact Hst|rewrite Hbooks; discriminate
        |rewrite Hbooks; exact Hrows|exact Hlink|exact Hhref|exact Hg].
  - intros [= <- <-].
    destruct (for_books_none _ _ _ _ Hfor) as (rows & -> & Hrows).
    exists [url], rows; rewrite requests_of_app; repeat split.
    eapply gathered_stop;
      [exact Hget|exact Hst|rewrite Hbooks; exact Hrows|now right].
Qed.

Lemma gathered_loop_returns (history : list pystr) (url : pystr)
    (requests : list pystr) (rows : list row) :
  gathered history url requests rows ->
  forall fuel results page_num log,
    requests_of log = history ->
    (List.length requests <= fuel)%nat ->
    exists log',
      scrape_loop fuel url results page_num log
      = (log', Returned (results ++ rows))
      /\ requests_of log' = history ++ requests.
Proof.
  induction 1 as [history url r rows Hget Hst Hrows Hstop
                 |history url r rows a href requests rows' Hget Hst Hne Hrows
                    Hlink Hhref Hrest IH];
    intros fuel results page_num log Hlog Hfuel;
    (destruct fuel as [|fuel]; [simpl in Hfuel; lia|]); subst history.
  - destruct Hstop as [Hnone|Hlink].
    + rewrite Hnone in Hrows; inversion Hrows; subst.
      rewrite scrape_loop_S, Hget, Hst; cbv zeta; rewrite Hnone, app_nil_r.
      eexists; split; [reflexivity|now rewrite requests_of_app].
    + exact (last_page unicode_todecimal urljoin requests_get fuel url results
               rows page_num log r Hget Hst Hrows Hlink).
  - rewrite (linked_page unicode_todecimal urljoin requests_get fuel url results
               rows page_num log r a href Hget Hst Hne Hrows Hlink Hhref).
    match goal with
    | |- context [scrape_loop fuel ?u ?rs ?pn ?l] =>
        destruct (IH fuel rs pn l) as (log' & Hrun & Hreq)
    end.
    + rewrite requests_of_app; simpl; reflexivity.
    + simpl in Hfuel; lia.
    + exists log'; rewrite Hrun, Hreq, <- !app_assoc; auto.
Qed.

Lemma gathered_rows (P : row -> Prop) :
  (forall book r, extract_book book = Ok r -> P r) ->
  forall history url requests rows,
    gathered history url requests rows -> Forall P rows.
Proof.
  intros HP history url requests rows H.
  assert (Hex : forall books rs, extracted books rs -> Forall P rs).
  { intros books rs Hrs; induction Hrs; constructor; eauto. }
  induction H; [eauto|].
  apply Forall_app; split; eauto.
Qed.

Lemma loop_raisable (fuel : nat) :
  forall url results page_num log e,
    snd (scrape_loop fuel url results page_num log) = Raised e -> raisable e.
Proof.
  induction fuel as [|fuel IH]; intros url results page_num log e0;
    [discriminate|].
  loop_turn r b bs results' e a href Hget Hst Hbooks Hfor Hlink Hhref;
    simpl; try discriminate.
  - intros [= <-]; exact (error_status_range _ Hst).
  - intros [= <-].
    destruct (for_books_some _ _ _ _ _ Hfor) as [-> | ->]; exact I.
  - apply IH.
  - now intros [= <-].
  - now intros [= <-].
Qed.

Lemma loop_pacing (fuel : nat) :
  forall url results page_num log,
    snd (scrape_loop fuel url results page_num log) <> Running ->
    exists requests,
      requests_of (fst (scrape_loop fuel url results page_num log))
      = requests_of log ++ url :: requests
      /\ pacing (fst (scrape_loop fuel url results page_num log))
         = pacing log ++ paced (url :: requests).
Proof.
  induction fuel as [|fuel IH]; intros url results page_num log;
    [simpl; congruence|].
  loop_turn r b bs results' e a href Hget Hst Hbooks Hfor Hlink Hhref;
    try (intros _; exists []; cbn [fst];
         rewrite requests_of_app, pacing_app; split; reflexivity).
  intros H; destruct (IH _ _ _ _ H) as (requests & Hreq & Hpace).
  exists (urljoin url href :: requests).
  rewrite Hreq, Hpace, !requests_of_app, !pacing_app; simpl.
  rewrite app_nil_r, <- !app_assoc; split; reflexivity.
Qed.

Lemma loop_page_numbers (fuel : nat) :
  forall url results page_num log,
  exists k,
    page_numbers (fst (scrape_loop fuel url results page_num log))
    = page_numbers log ++ count_from page_num k.
Proof.
  induction fuel as [|fuel IH]; intros url results page_num log.
  - exists 0%nat; simpl; now rewrite app_nil_r.
  - loop_turn r b bs results' e a href Hget Hst Hbooks Hfor Hlink Hhref;
      try (exists 0%nat; cbn [fst]; rewrite page_numbers_app; reflexivity);
      try (exists 1%nat; cbn [fst]; rewrite page_numbers_app; reflexivity).
    match goal with
    | |- context [scrape_loop fuel ?u ?rs ?pn ?l] =>
        destruct (IH u rs pn l) as (k & Hk)
    end.
    exists (S k); rewrite Hk, !page_numbers_app; simpl.
    now rewrite app_nil_r, <- app_assoc.
Qed.

(** X9.  A run that returns went through a chain of pages, each
    fetched without an error status and with entries that all extract,
    from the base URL along the next links up to the first page
    without entries or without a next link; it returns the rows of
    these pages, page after page, each page's rows in the order of its
    entries. *)
Theorem returned_rows_are_gathered :
  forall (fuel : nat) (base_url : pystr) (log : list event) (df : list row),
    scrape_all_pages fuel base_url = (log, Returned df) ->
    gathered [] base_url (requests_of log) df.
Proof.
  intros fuel base_url log df H.
  apply loop_returned_gathered in H as (requests & rows & -> & -> & Hg).
  exact Hg.
Qed.

(** X10.  Conversely, along such a chain of k pages the run returns,
    with any fuel from k on, and makes exactly the k requests of the
    chain: on a site of finitely many linked pages the loop ends. *)
Theorem gathered_rows_are_returned :
  forall (base_url : pystr) (requests : list pystr) (df : list row) (fuel : nat),
    gathered [] base_url requests df ->
    (List.length requests <= fuel)%nat ->
    exists log,
      scrape_all_pages fuel base_url = (log, Returned df)
      /\ requests_of log = requests.
Proof.
  intros base_url requests df fuel Hg Hfuel.
  exact (gathered_loop_returns [] base_url requests df Hg fuel [] 1 [] eq_refl Hfuel).
Qed.

(** X11.  Every row a run returns has a title without whitespace at
    either end and a rating that is absent or from 1 to 5. *)
Theorem returned_rows_are_valid :
  forall (fuel : nat) (base_url : pystr) (log : list event) (df : list row),
    scrape_all_pages fuel base_url = (log, Returned df) ->
    Forall (fun r => trimmed (title r) = true /\ valid_rating (rating r)) df.
Proof.
  intros fuel base_url log df H.
  apply loop_returned_gathered in H as (requests & rows & _ & -> & Hg).
  exact (gathered_rows _ (extract_book_valid unicode_todecimal) _ _ _ _ Hg).
Qed.

(** X12.  The exceptions of a run: a transport error of the GET, an
    HTTP error with a status from 400 to 599, AttributeError or
    ValueError from an entry, KeyError for a next link without [href].
    Nothing else; in particular the indexing [words[0]] of the rating
    decoder never raises. *)
Theorem only_listed_exceptions :
  forall (fuel : nat) (base_url : pystr) (e : exn),
    snd (scrape_all_pages fuel base_url) = Raised e -> raisable e.
Proof. intros fuel base_url e; apply loop_raisable. Qed.

(** X13.  In a run that ended, the requests and the pauses alternate:
    one pause of one second between each two requests, none before the
    first request and none after the last. *)
Theorem one_pause_between_requests :
  forall (fuel : nat) (base_url : pystr),
    snd (scrape_all_pages fuel base_url) <> Running ->
    pacing (fst (scrape_all_pages fuel base_url))
    = paced (requests_of (fst (scrape_all_pages fuel base_url))).
Proof.
  intros fuel base_url H.
  destruct (loop_pacing fuel base_url [] 1 [] H) as (requests & Hreq & Hpace).
  unfold scrape_all_pages; now rewrite Hreq, Hpace.
Qed.

(** X14.  The progress lines of a run are numbered 1, 2, 3, ... in
    the order they are printed. *)
Theorem progress_lines_numbered :
  forall (fuel : nat) (base_url : pystr),
    page_numbers (fst (scrape_all_pages fuel base_url))
    = count_from 1
        (List.length (page_numbers (fst (scrape_all_pages fuel base_url)))).
Proof.
  intros fuel base_url.
  destruct (loop_page_numbers fuel base_url [] 1 []) as (k & Hk).
  unfold scrape_all_pages; rewrite Hk; simpl.
  now rewrite count_from_length.
Qed.

End MoreDriverProperties.

(** * Properties of test mode and of the script *)

Lemma requests_of_rows (rows : list row) :
  requests_of (map EPrintRow rows) = [].
Proof. induction rows; simpl; auto. Qed.

Lemma slice_to_length {A : Type} (l : list A) (n : Z) :
  Z.of_nat (List.length (slice_to l n))
  = if (0 <=? n)%Z then Z.min n (Z.of_nat (List.length l))
    else Z.max 0 (Z.of_nat (List.length l) + n).
Proof.
  unfold slice_to; destruct (0 <=? n)%Z eqn:E; rewrite length_firstn.
  - apply Z.leb_le in E; lia.
  - apply Z.leb_gt in E; lia.
Qed.

Lemma script_requests_core (log : list event) :
  script_requests (map Core log) = requests_of log.
Proof.
  induction log as [|[u|pn n|s|r|n] log IH]; simpl; now rewrite ?IH.
Qed.

Lemma not_in_core (x : script_event) (log : list event) :
  (forall e, x <> Core e) -> ~ In x (map Core log).
Proof.
  intros H Hin; apply in_map_iff in Hin as (e & <- & _); now apply (H e).
Qed.

Section ScriptProperties.

Variable unicode_todecimal : N -> option N.
Variable urljoin : pystr -> pystr -> pystr.
Variable requests_get : list pystr -> pystr -> get_outcome.
Variable to_csv : pystr -> list row -> bool.

Abbreviation extracted := (extracted unicode_todecimal).
Abbreviation for_books := (for_books unicode_todecimal).
Abbreviation scrape_all_pages :=
  (scrape_all_pages unicode_todecimal urljoin requests_get).
Abbreviation gathered := (gathered unicode_todecimal urljoin requests_get).
Abbreviation test_mode := (test_mode unicode_todecimal requests_get).
Abbreviation script := (script unicode_todecimal urljoin requests_get to_csv).

Lemma test_mode_extracted (test_count : Z) (r : response) (rows : list row) :
  requests_get [] site_url = Responds r ->
  is_error_status (status_code r) = false ->
  extracted (slice_to (item_containers (soup r)) test_count) rows ->
  test_mode test_count = (preview rows, None).
Proof.
  intros Hget Hst Hrows; unfold test_mode, raise_for_status.
  fold site_url; rewrite Hget, Hst.
  fold (item_containers (soup r)).
  now rewrite (for_books_extracted unicode_todecimal _ _ [] Hrows).
Qed.

(** X15.  Test mode makes one request, to the front page of the site,
    whatever the page holds and however it ends: it follows no next
    link. *)
Theorem test_mode_single_request :
  forall (test_count : Z),
    requests_of (fst (test_mode test_count)) = [site_url].
Proof.
  intros n; unfold test_mode; fold site_url.
  destruct (requests_get [] site_url) as [r|e]; [|reflexivity].
  destruct (raise_for_status r); [|reflexivity].
  destruct (for_books _ _) as [rows [e|]]; [reflexivity|].
  cbn [fst]; rewrite !requests_of_app, requests_of_rows; reflexivity.
Qed.

(** X16.  Test mode looks at the entries [books[:test_count]] only:
    when these extract it prints their rows and their number and ends
    without an exception, whatever the entries after them hold.  The
    number of rows is [test_count] or the number of entries of the
    page if that is less; for a negative [test_count], the entries but
    the last [-test_count] of them. *)
Theorem test_mode_prints_slice :
  forall (test_count : Z) (r : response) (rows : list row),
    requests_get [] site_url = Responds r ->
    is_error_status (status_code r) = false ->
    extracted (slice_to (item_containers (soup r)) test_count) rows ->
    test_mode test_count = (preview rows, None)
    /\ Z.of_nat (List.length rows)
       = if (0 <=? test_count)%Z
         then Z.min test_count (Z.of_nat (List.length (item_containers (soup r))))
         else Z.max 0 (Z.of_nat (List.length (item_containers (soup r))) + test_count).
Proof.
  intros n r rows Hget Hst Hrows; split.
  - exact (test_mode_extracted n r rows Hget Hst Hrows).
  - rewrite (extracted_length unicode_todecimal _ _ Hrows).
    apply slice_to_length.
Qed.

Lemma extracted_firstn (k : nat) (books : list tag) (rows : list row) :
  extracted books rows -> extracted (firstn k books) (firstn k rows).
Proof.
  intros H; revert k.
  induction H as [|book r books rows Hr Hrows IH]; intros [|k]; simpl;
    try constructor; [exact Hr|apply IH].
Qed.

(** X17.  Test mode previews the full run: when the full run over the
    site returns, test mode with a count n >= 0 prints the first n
    rows of the first page, which are the first rows the full run
    returns. *)
Theorem test_mode_previews_full_run :
  forall (fuel : nat) (log : list event) (df : list row) (test_count : Z),
    scrape_all_pages fuel site_url = (log, Returned df) ->
    (0 <= test_count)%Z ->
    exists r rows1 rest,
      requests_get [] site_url = Responds r
      /\ extracted (item_containers (soup r)) rows1
      /\ df = rows1 ++ rest
      /\ test_mode test_count
         = (preview (firstn (Z.to_nat test_count) rows1), None).
Proof.
  intros fuel log df n H Hn.
  apply (loop_returned_gathered unicode_todecimal urljoin requests_get) in H
    as (requests & rows & _ & -> & Hg).
  simpl in Hg |- *.
  assert (Hfirst : exists r rows1 rest,
             requests_get [] site_url = Responds r
             /\ is_error_status (status_code r) = false
             /\ extracted (item_containers (soup r)) rows1
             /\ rows = rows1 ++ rest).
  { inversion Hg; subst.
    - exists r, rows, []; rewrite app_nil_r; auto.
    - exists r, rows0, rows'; auto. }
  destruct Hfirst as (r & rows1 & rest & Hget & Hst & Hrows & ->).
  exists r, rows1, rest; repeat split; auto.
  apply (test_mode_extracted n r _ Hget Hst).
  unfold slice_to; apply Z.leb_le in Hn; rewrite Hn.
  now apply extracted_firstn.
Qed.


(** X19.  The script writes the file only in a full run whose scraping
    returned, to the path given on the command line and with all the
    rows returned; when the script ends on an exception of the
    scraping code it has written nothing. *)
Theorem csv_only_after_complete_scrape :
  forall (deps : installed) (args : arguments) (fuel : nat),
    (forall path df,
       In (ToCsv path df) (fst (script deps args fuel)) ->
       test args = false /\ path = output args
       /\ exists log, scrape_all_pages fuel site_url = (log, Returned df))
    /\ (forall e,
          snd (script deps args fuel) = Uncaught e ->
          forall path df, ~ In (ToCsv path df) (fst (script deps args fuel))).
Proof.
  intros deps args fuel.
  assert (Hcore : forall path df log, ~ In (ToCsv path df) (map Core log))
    by (intros; apply not_in_core; discriminate).
  assert (Hwarn : forall path df (b : bool),
             ~ In (ToCsv path df) (if b then [] else [Warned]))
    by (intros path df [|] Hin; simpl in Hin; [exact Hin|];
        destruct Hin as [H|H]; [discriminate|exact H]).
  assert (Hboth : forall path df (b : bool) log,
             ~ In (ToCsv path df) ((if b then [] else [Warned]) ++ map Core log)).
  { intros path df b log Hin; apply in_app_or in Hin as [Hin|Hin];
      [exact (Hwarn _ _ _ Hin)|exact (Hcore _ _ _ Hin)]. }
  unfold script.
  destruct (has_requests deps); cbn [negb fst snd].
  2:{ split; [intros path df Hin; destruct Hin|discriminate]. }
  destruct (has_bs4 deps); cbn [negb fst snd].
  2:{ split; [intros path df Hin; destruct Hin|discriminate]. }
  destruct (test args).
  - destruct (test_mode _) as [log [e|]]; cbn [fst snd]; split.
    + intros path df Hin; exfalso; exact (Hboth _ _ _ _ Hin).
    + intros e' _ path df; apply Hboth.
    + intros path df Hin; exfalso; exact (Hboth _ _ _ _ Hin).
    + discriminate.
  - destruct (has_pandas deps); cbn [negb fst snd].
    2:{ split; [intros path df Hin; destruct Hin as [H|H];
                 [discriminate|destruct H]|discriminate]. }
    destruct (scrape_all_pages fuel site_url) as [log [df|e|]] eqn:Hrun.
    + assert (Hcsv : forall path df' tail,
                 (forall x, In x tail -> x <> ToCsv path df') ->
                 In (ToCsv path df') ((map Core log ++ [ToCsv (output args) df]) ++ tail) ->
                 path = output args
                 /\ exists log0, (log, Returned df) = (log0, Returned df')).
      { intros path df' tail Htail Hin.
        apply in_app_or in Hin as [Hin|Hin]; [|now apply Htail in Hin].
        apply in_app_or in Hin as [Hin|[Hin|[]]];
          [exfalso; exact (Hcore _ _ _ Hin)|].
        injection Hin as <- <-; eauto. }
      destruct (to_csv (output args) df); cbn [fst snd]; split; try discriminate.
      * intros path df' Hin.
        destruct (Hcsv path df' [PrintSaved (List.length df) (output args)])
          as (Hp & Hl); [intros x [<-|[]]; discriminate|exact Hin|].
        auto.
      * intros path df' Hin.
        destruct (Hcsv path df' []) as (Hp & Hl);
          [intros x []|now rewrite app_nil_r|].
        auto.
    + cbn [fst snd]; split; [intros path df Hin|intros ? _ path df Hin];
        exfalso; exact (Hcore _ _ _ Hin).
    + cbn [fst snd]; split; [intros path df Hin|discriminate].
      exfalso; exact (Hcore _ _ _ Hin).
Qed.

(** X20.  Test mode does not need pandas: without it the script does
    what it does with it, after the warning of line 24. *)
Theorem test_mode_works_without_pandas :
  forall (args : arguments) (fuel : nat),
    test args = true ->
    script (mkInstalled true true false) args fuel
    = (Warned :: fst (script (mkInstalled true true true) args fuel),
       snd (script (mkInstalled true true true) args fuel)).
Proof.
  intros args fuel Htest; unfold script; cbn [has_requests has_bs4 has_pandas negb].
  rewrite Htest.
  destruct (test_mode _) as [log [e|]]; reflexivity.
Qed.

End ScriptProperties.

(** * The theorems at the example pages *)

Import Examples.

(** [float] on a few texts: the usual doubles, ties to even, overflow
    to infinity, underflow to zero, underscores between digits, digits
    of another script, and texts that are not numbers. *)
Lemma float_examples :
  float todecimal (py "0.1") = Ok (S754_finite false 7205759403792794 (-56))
  /\ float todecimal (py "1e23") = Ok (S754_finite false 5960464477539062 24)
  /\ float todecimal (py "9007199254740993")
     = Ok (S754_finite false 4503599627370496 1)
  /\ float todecimal (py "1e400") = Ok (S754_infinity false)
  /\ float todecimal (py "-1e-400") = Ok (S754_zero true)
  /\ float todecimal (py " 1_000.5 ") = Ok (S754_finite false 8800491068719104 (-43))
  /\ float todecimal [1637; 1633] = Ok (S754_finite false 7177611906121728 (-47))
  /\ float todecimal (py "-Infinity") = Ok (S754_infinity true)
  /\ float todecimal (py "") = Raise ValueError
  /\ float todecimal (py "1_") = Raise ValueError
  /\ float todecimal (py "1e") = Raise ValueError
  /\ float todecimal (py "12,50") = Raise ValueError
  /\ float todecimal (pound :: py "51.77") = Raise ValueError.
Proof. repeat split; vm_compute; reflexivity. Qed.

(** The full run over three linked pages: what it does, and the rows
    it returns. *)
Lemma run_three_pages :
  run three_pages 5
  = ([EGet base_url; EPrint 1 2; ESleep 1;
      EGet page2_url; EPrint 2 1; ESleep 1;
      EGet page3_url; EPrint 3 1],
     Returned
       [mkRow (py "A Light in the Attic") float_51_77 (Some 3%Z);
        mkRow (py "Tipping the Velvet")
          (S754_finite false 7563232624215327 (-47)) (Some 1%Z);
        mkRow (py "Soumission") (S754_finite false 7050948166601933 (-47)) None;
        mkRow [] (S754_finite false 7875669848364155 (-49)) (Some 5%Z)]).
Proof. vm_compute; reflexivity. Qed.

Lemma C3_witness :
  exists log rows,
    run (one_page [attic; velvet] 200) 1 = (log, Returned rows)
    /\ requests_of log = [base_url]
    /\ List.length rows
       = List.length (item_containers (page [attic; velvet] None))
    /\ extracted todecimal (item_containers (page [attic; velvet] None)) rows.
Proof.
  apply (C3_single_page todecimal urljoin_path
           (serve (one_page [attic; velvet] 200)) base_url
           (mkResponse 200 (page [attic; velvet] None)) 0);
    vm_compute; reflexivity.
Defined.

(** Against C3 as stated: a page with three book entries and no next
    marker, the second entry without a price element.  The run raises;
    it returns no rows, whatever the fuel. *)
Lemma C3_counterexample :
  serve (one_page [attic; no_price; velvet] 200) [] base_url
  = Responds (mkResponse 200 page_no_price)
  /\ List.length (item_containers page_no_price) = 3%nat
  /\ next_marker page_no_price = None
  /\ (forall fuel,
        run (one_page [attic; no_price; velvet] 200) (S fuel)
        = ([EGet base_url], Raised AttributeError))
  /\ (forall fuel log rows,
        run (one_page [attic; no_price; velvet] 200) fuel
        <> (log, Returned rows)).
Proof.
  assert (H : forall fuel,
             run (one_page [attic; no_price; velvet] 200) (S fuel)
             = ([EGet base_url], Raised AttributeError))
    by (intros fuel; vm_compute; reflexivity).
  split; [vm_compute; reflexivity|].
  split; [vm_compute; reflexivity|].
  split; [vm_compute; reflexivity|].
  split; [exact H|].
  intros [|fuel] log rows; [|rewrite H]; vm_compute; discriminate.
Qed.

Lemma C4_witness :
  exists log rows1 rows2,
    run two_pages 2 = (log, Returned (rows1 ++ rows2))
    /\ requests_of log
       = [base_url; urljoin_path base_url (py "catalogue/page-2.html")]
    /\ extracted todecimal (item_containers
         (page [attic; velvet] (Some (py "catalogue/page-2.html")))) rows1
    /\ extracted todecimal (item_containers
         (page [soumission; untitled] None)) rows2.
Proof.
  apply (C4_two_pages todecimal urljoin_path (serve two_pages) base_url
           (mkResponse 200 (page [attic; velvet] (Some (py "catalogue/page-2.html"))))
           (mkResponse 200 (page [soumission; untitled] None))
           (Tag (py "a") None [(py "href", py "catalogue/page-2.html")]
              [NavigableString (py "next")])
           (py "catalogue/page-2.html") 0);
    try (vm_compute; reflexivity).
  vm_compute; discriminate.
Defined.

(** Against C4 as stated: page 1 has a next link to page 2 and page 2
    has none, but page 1 lists no book.  The driver makes one request,
    not two, and returns no rows. *)
Lemma C4_counterexample :
  serve empty_then_more [] base_url = Responds (mkResponse 200 page_empty_linked)
  /\ (exists a, next_link page_empty_linked = Some a
                /\ get_attr a (py "href") = Some (py "catalogue/page-2.html"))
  /\ urljoin_path base_url (py "catalogue/page-2.html") = page2_url
  /\ serve empty_then_more [base_url] page2_url
     = Responds (mkResponse 200 page_soumission)
  /\ next_link page_soumission = None
  /\ List.length (item_containers page_soumission) = 1%nat
  /\ (forall fuel,
        run empty_then_more (S fuel) = ([EGet base_url], Returned [])).
Proof.
  split; [vm_compute; reflexivity|].
  split; [eexists; split; vm_compute; reflexivity|].
  repeat (split; [vm_compute; reflexivity|]).
  intros fuel; vm_compute; reflexivity.
Qed.

Lemma C5_witness :
  run (one_page [] 200) 1 = ([EGet base_url], Returned []).
Proof.
  apply (C5_empty_first_page todecimal urljoin_path (serve (one_page [] 200))
           base_url (mkResponse 200 (page [] None)) 0);
    vm_compute; reflexivity.
Defined.

Lemma C6_witness :
  exists r next_li a href,
    serve three_pages [base_url] page2_url = Responds r
    /\ find (py "li") (Some (py "next")) (soup r) = Some next_li
    /\ find (py "a") None next_li = Some a
    /\ get_attr a (py "href") = Some href
    /\ page3_url = urljoin_path page2_url href.
Proof.
  apply (C6_next_url_joined_to_current todecimal urljoin_path
           (serve three_pages) 10 base_url [base_url] page2_url page3_url []).
  vm_compute; reflexivity.
Defined.

(** On the three example pages the third request goes to the link of
    page 2 joined to the URL of page 2; joined to the base URL it
    would be another address. *)
Lemma third_request_not_joined_to_base :
  requests_of (fst (run three_pages 10)) = [base_url; page2_url; page3_url]
  /\ urljoin_path page2_url (py "page-3.html") = page3_url
  /\ urljoin_path base_url (py "page-3.html") <> page3_url.
Proof.
  split; [vm_compute; reflexivity|].
  split; [vm_compute; reflexivity|].
  vm_compute; discriminate.
Qed.

Lemma C7_witness :
  extract_price todecimal spaced = Ok float_51_77
  /\ forall r, extract_book todecimal spaced = Ok r -> price r = float_51_77.
Proof.
  apply (C7_price_51_77 todecimal spaced
           (Tag (py "p") (Some [py "price_color"]) []
              [NavigableString (py "  " ++ pound :: py "51.77" ++ [10])])
           (py "  ") [10]);
    vm_compute; reflexivity.
Defined.

Lemma C8_witness :
  exists before stopped rest rows e,
    [attic] ++ bad_price :: [velvet] = before ++ stopped :: rest
    /\ (List.length before <= List.length [attic])%nat
    /\ extracted todecimal before rows
    /\ extract_book todecimal stopped = Raise e
    /\ for_books todecimal ([attic] ++ bad_price :: [velvet]) []
       = ([] ++ rows, Some e)
    /\ scrape_loop todecimal urljoin_path
         (serve (one_page [attic; bad_price; velvet] 200)) 1 base_url [] 1 []
       = ([] ++ [EGet base_url], Raised e).
Proof.
  apply (C8_bad_price_aborts todecimal urljoin_path
           (serve (one_page [attic; bad_price; velvet] 200)) 0 base_url [] 1 []
           (mkResponse 200 (page [attic; bad_price; velvet] None))
           [attic] [velvet] bad_price);
    try (vm_compute; reflexivity).
  right; eexists; split; vm_compute; reflexivity.
Defined.

Lemma C9_witness :
  (@nil pystr = [] /\ snd (run broken_link 10) = Raised (HTTPError 503))
  /\ (@nil pystr = []
      /\ snd (scrape_all_pages todecimal urljoin_path unreachable 10 base_url)
         = Raised (RequestException ConnectionError)).
Proof.
  split.
  - apply (C9_failed_fetch_aborts todecimal urljoin_path (serve broken_link)
             10 base_url [base_url] page2_url [] (HTTPError 503));
      vm_compute; reflexivity.
  - apply (C9_failed_fetch_aborts todecimal urljoin_path unreachable
             10 base_url [] base_url [] (RequestException ConnectionError));
      vm_compute; reflexivity.
Defined.

(** Against C9 as stated: the GET returns status 300, which is not a
    2xx status; [raise_for_status] lets it pass, the page is scraped
    and its row returned. *)
Lemma C9_counterexample :
  serve (one_page [attic] 300) [] base_url = Responds (mkResponse 300 page_attic)
  /\ ~ (200 <= 300 < 300)%Z
  /\ (forall fuel,
        run (one_page [attic] 300) (S fuel)
        = ([EGet base_url; EPrint 1 1],
           Returned [mkRow (py "A Light in the Attic") float_51_77 (Some 3%Z)])).
Proof.
  split; [vm_compute; reflexivity|].
  split; [lia|].
  intros fuel; vm_compute; reflexivity.
Qed.

Lemma C10_witness :
  extract_title untitled = Ok []
  /\ forall x, extract_price todecimal untitled = Ok x ->
       exists rt,
         extract_book todecimal untitled = Ok (mkRow [] x rt)
         /\ forall books results,
              for_books todecimal (untitled :: books) results
              = for_books todecimal books (results ++ [mkRow [] x rt]).
Proof.
  apply (C10_missing_title_is_empty todecimal untitled
           (Tag (py "h3") None []
              [Element (text_tag "a" None [(py "href", py "catalogue/index.html")]
                 (py "A Light in the ..."))])
           (text_tag "a" None [(py "href", py "catalogue/index.html")]
              (py "A Light in the ...")));
    vm_compute; reflexivity.
Defined.

(** Test mode on a page whose second entry has no title: both rows
    are printed, the second with the empty title. *)
Lemma test_mode_untitled :
  test_mode todecimal (serve (one_page [attic; untitled; velvet] 200)) 2
  = ([EGet base_url;
      EPrintRow (mkRow (py "A Light in the Attic") float_51_77 (Some 3%Z));
      EPrintRow (mkRow [] (S754_finite false 7875669848364155 (-49)) (Some 5%Z));
      EPrintCount 2],
     None).
Proof. vm_compute; reflexivity. Qed.

(** * The further properties at the example pages *)

Lemma rating_in_range_witness : (1 <= 3 <= 5)%Z.
Proof.
  apply (rating_in_range
           (Some (Tag (py "p") (Some [py "star-rating"; py "Three"]) [] [])) 3).
  reflexivity.
Defined.

Lemma rating_first_token_decides_witness :
  extract_rating_int
    (Some (Tag (py "p") (Some [py "star-rating"; py "Big"; py "Three"]) [] []))
  = extract_rating_int (Some (Tag (py "p") (Some [py "Big"]) [] [])).
Proof.
  apply (rating_first_token_decides _ _ [py "star-rating"] [py "Three"] (py "Big")).
  - reflexivity.
  - simpl; intros c [<-|[]]; reflexivity.
  - reflexivity.
  - reflexivity.
Defined.

Lemma rating_case_insensitive_witness :
  extract_rating_int
    (Some (Tag (py "p") (Some [py "STAR-rating"; py "tWo"]) [] []))
  = extract_rating_int
      (Some (Tag (py "p") (Some [py "star-rating"; py "Two"]) [] [])).
Proof.
  apply rating_case_insensitive; reflexivity.
Defined.

Lemma missing_heading_link_raises_witness :
  extract_title no_heading = Raise AttributeError
  /\ extract_book todecimal no_heading = Raise AttributeError.
Proof.
  apply (missing_heading_link_raises todecimal no_heading); reflexivity.
Defined.

Lemma price_ignores_pound_and_spaces_witness :
  parse_price todecimal ([32] ++ (py "5" ++ pound :: py "1.77") ++ [10; 160])
  = parse_price todecimal (py "5" ++ py "1.77").
Proof.
  apply (price_ignores_pound_and_spaces todecimal [32] [10; 160]); reflexivity.
Defined.

Lemma blank_price_raises_witness :
  parse_price todecimal [32; pound; 9] = Raise ValueError.
Proof.
  apply (blank_price_raises todecimal [32; pound; 9]); reflexivity.
Defined.

Lemma returned_rows_are_gathered_witness :
  gathered todecimal urljoin_path (serve three_pages) [] base_url
    (requests_of three_pages_log) three_pages_rows.
Proof.
  apply (returned_rows_are_gathered todecimal urljoin_path (serve three_pages)
           5 base_url three_pages_log three_pages_rows).
  vm_compute; reflexivity.
Defined.

Lemma gathered_rows_are_returned_witness :
  exists log,
    run two_pages 2
    = (log, Returned [attic_row; velvet_row; soumission_row; untitled_row])
    /\ requests_of log = [base_url; page2_url].
Proof.
  apply (gathered_rows_are_returned todecimal urljoin_path (serve two_pages)
           base_url [base_url; page2_url]
           ([attic_row; velvet_row] ++ [soumission_row; untitled_row]) 2);
    [|simpl; lia].
  apply (gathered_next todecimal urljoin_path (serve two_pages) [] base_url
           (mkResponse 200 (page [attic; velvet] (Some (py "catalogue/page-2.html"))))
           [attic_row; velvet_row]
           (Tag (py "a") None [(py "href", py "catalogue/page-2.html")]
              [NavigableString (py "next")])
           (py "catalogue/page-2.html") [page2_url] [soumission_row; untitled_row]).
  - reflexivity.
  - reflexivity.
  - vm_compute; discriminate.
  - repeat constructor.
  - reflexivity.
  - reflexivity.
  - apply (gathered_stop todecimal urljoin_path (serve two_pages)
             [base_url] page2_url
             (mkResponse 200 (page [soumission; untitled] None))
             [soumission_row; untitled_row]).
    + reflexivity.
    + reflexivity.
    + repeat constructor.
    + right; reflexivity.
Defined.

Lemma returned_rows_are_valid_witness :
  Forall (fun r => trimmed (title r) = true /\ valid_rating (rating r))
    three_pages_rows.
Proof.
  apply (returned_rows_are_valid todecimal urljoin_path (serve three_pages)
           5 base_url three_pages_log three_pages_rows).
  vm_compute; reflexivity.
Defined.

Lemma only_listed_exceptions_witness :
  raisable (HTTPError 503) /\ raisable AttributeError.
Proof.
  split.
  - apply (only_listed_exceptions todecimal urljoin_path (serve broken_link)
             5 base_url (HTTPError 503)).
    vm_compute; reflexivity.
  - apply (only_listed_exceptions todecimal urljoin_path
             (serve (one_page [attic; no_price; velvet] 200))
             5 base_url AttributeError).
    vm_compute; reflexivity.
Defined.

Lemma one_pause_between_requests_witness :
  pacing (fst (run three_pages 5))
  = paced (requests_of (fst (run three_pages 5))).
Proof.
  apply (one_pause_between_requests todecimal urljoin_path (serve three_pages)
           5 base_url).
  vm_compute; discriminate.
Defined.

Lemma test_mode_prints_slice_witness :
  test_mode todecimal (serve (one_page [attic; no_price; velvet] 200)) 1
  = (preview [attic_row], None)
  /\ Z.of_nat (List.length [attic_row])
     = if (0 <=? 1)%Z
       then Z.min 1 (Z.of_nat (List.length
              (item_containers (soup (mkResponse 200 page_no_price)))))
       else Z.max 0 (Z.of_nat (List.length
              (item_containers (soup (mkResponse 200 page_no_price)))) + 1).
Proof.
  apply (test_mode_prints_slice todecimal
           (serve (one_page [attic; no_price; velvet] 200)) 1
           (mkResponse 200 page_no_price) [attic_row]).
  - reflexivity.
  - reflexivity.
  - repeat constructor.
Defined.

(** On that page the full run raises where test mode with a count of
    one ends well. *)
Lemma full_run_raises_where_test_mode_ends :
  snd (run (one_page [attic; no_price; velvet] 200) 5) = Raised AttributeError
  /\ snd (test_mode todecimal (serve (one_page [attic; no_price; velvet] 200)) 1)
     = None.
Proof. split; vm_compute; reflexivity. Qed.

Lemma test_mode_previews_full_run_witness :
  exists r rows1 rest,
    serve three_pages [] site_url = Responds r
    /\ extracted todecimal (item_containers (soup r)) rows1
    /\ three_pages_rows = rows1 ++ rest
    /\ test_mode todecimal (serve three_pages) 1
       = (preview (firstn (Z.to_nat 1) rows1), None).
Proof.
  apply (test_mode_previews_full_run todecimal urljoin_path (serve three_pages)
           5 three_pages_log three_pages_rows 1).
  - vm_compute; reflexivity.
  - lia.
Defined.


Lemma test_mode_works_without_pandas_witness :
  script todecimal urljoin_path (serve three_pages) disk
    (mkInstalled true true false) quick_test 5
  = (Warned :: fst (script todecimal urljoin_path (serve three_pages) disk
                      (mkInstalled true true true) quick_test 5),
     snd (script todecimal urljoin_path (serve three_pages) disk
            (mkInstalled true true true) quick_test 5)).
Proof.
  apply (test_mode_works_without_pandas todecimal urljoin_path
           (serve three_pages) disk quick_test 5).
  reflexivity.
Defined.

(** The full run of the script over the three example pages. *)
Lemma script_full_run :
  script todecimal urljoin_path (serve three_pages) disk
    (mkInstalled true true true) full_run 5
  = (map Core three_pages_log
       ++ [ToCsv (py "books.csv") three_pages_rows;
           PrintSaved 4 (py "books.csv")],
     Finished).
Proof. vm_compute; reflexivity. Qed.
